(** * Marvell USB VBUS power regulator (drivers/regulator/mv-vbus-regulator.c)

    A shallow embedding of the driver: configuration extraction from the
    device tree, the regulator operations table, and the probe / remove
    lifecycle with its error unwinding.  The kernel services the driver
    calls (allocator, GPIO layer, regulator framework, driver-data slot)
    are modelled as operations on an explicit kernel state. *)

From stdpp Require Import gmap strings list fin_maps.
From Stdlib Require Import ZArith Lia.

Open Scope Z_scope.

(** ** Error numbers

    The kernel's errno headers are not among the sources at hand; the
    driver returns these codes negated. *)

(** Modelled from the spec: the code of AllocationFailure. *)
Definition ENOMEM : Z := 12.

(** Modelled from the spec: the code of PinUnavailable for a pin that
    is already owned. *)
Definition EBUSY : Z := 16.

(** Modelled from the spec: the "not present" answer of the GPIO lookup. *)
Definition ENODEV : Z := 19.

(** Modelled from the spec: the code of InvalidVoltageRange,
    VoltageUnset and InvalidSelector. *)
Definition EINVAL : Z := 22.

(** Modelled from the spec: the code of DeferProbe. *)
Definition EPROBE_DEFER : Z := 517.

(** ** GPIO request flags

    include/linux/gpio.h is not among the sources at hand.  The GPIO
    collaborator takes a direction and an initial level; the flag word
    carries the direction in bit 0 (clear is output) and the initial
    level in bit 1 (set is high). *)

(** Modelled from the spec: direction=output of the GPIO request. *)
Definition GPIOF_DIR_OUT : Z := Z.shiftl 0 0.

(** Modelled from the spec: initial level low. *)
Definition GPIOF_INIT_LOW : Z := Z.shiftl 0 1.

(** Modelled from the spec: initial level high. *)
Definition GPIOF_INIT_HIGH : Z := Z.shiftl 1 1.

(** Modelled from the spec: an output driven low when requested. *)
Definition GPIOF_OUT_INIT_LOW : Z := Z.lor GPIOF_DIR_OUT GPIOF_INIT_LOW.

(** Modelled from the spec: an output driven high when requested. *)
Definition GPIOF_OUT_INIT_HIGH : Z := Z.lor GPIOF_DIR_OUT GPIOF_INIT_HIGH.

(** Modelled from the spec: the level a requested output pin is driven
    to, bit 1 of the flags. *)
Definition gpiof_init_level (flags : Z) : bool := Z.testbit flags 1.

(** ** Data model *)

(** Pointers into the kernel stores are addresses; [None] is NULL. *)
Abbreviation addr := nat.

(** Modelled from the spec: the result of a pointer-returning call that
    can fail, either the pointer or ERR_PTR(e) for an error code [e]
    (linux/err.h is not among the sources at hand). *)
Inductive ptr_or_err (A : Type) : Type :=
  | PTR (a : A)
  | ERR_PTR (e : Z).
Arguments PTR {A} a.
Arguments ERR_PTR {A} e.

(** The fields of struct regulation_constraints the driver reads or writes. *)
Record regulation_constraints := {
  constraints_name : option string;
  min_uV : Z;
  max_uV : Z;
  apply_uV : bool;
  boot_on : bool
}.

Record regulator_init_data := {
  constraints : regulation_constraints
}.

Record mv_vbus_config := {
  supply_name : option string;
  input_supply : option string;
  microvolts : Z;
  gpio : Z;
  startup_delay : Z;
  enable_high : bool;
  enabled_at_boot : bool;
  init_data : option regulator_init_data
}.

Inductive regulator_type := REGULATOR_VOLTAGE | REGULATOR_CURRENT.

(** The fields of struct regulator_desc the driver fills in.  The two
    names are kstrdup'ed strings, held by address. *)
Record regulator_desc := {
  desc_name : option addr;
  desc_supply_name : option addr;
  desc_type : regulator_type;
  desc_n_voltages : Z;
  desc_enable_time : Z
}.

Record mv_vbus_data := {
  desc : regulator_desc;
  dev : ptr_or_err (option addr);
  d_gpio : Z;
  ena_gpio_invert : bool;
  d_microvolts : Z
}.

(** The fields of struct regulator_config set by probe. *)
Record regulator_config := {
  cfg_init_data : option regulator_init_data;
  cfg_driver_data : option addr;
  cfg_ena_gpio : Z;
  cfg_ena_gpio_invert : bool;
  cfg_ena_gpio_flags : Z
}.

(** What the regulator framework keeps for a registered regulator. *)
Record regulator_dev := {
  reg_data : option addr;
  rdev_constraints : option regulator_init_data
}.

(** A device-tree node, given by what the OF accessors return on it:
    [np_init_data] is the result of of_get_regulator_init_data,
    [np_gpio] the result of of_get_named_gpio(np, "gpio", 0) (a pin
    number or a negative errno), [np_startup_delay_us] the four raw
    bytes of the "startup-delay-us" property when present, and
    [np_enable_active_high] whether "enable-active-high" is present. *)
Record device_node := {
  np_init_data : option regulator_init_data;
  np_gpio : Z;
  np_startup_delay_us : option (Z * Z * Z * Z);
  np_enable_active_high : bool
}.

Record platform_device := {
  pdev_id : nat;
  of_node : option device_node;
  platform_data : option mv_vbus_config
}.

(** Zero-filled structures, as devm_kzalloc and [= { }] return them. *)
Definition zero_config : mv_vbus_config :=
  {| supply_name := None; input_supply := None; microvolts := 0; gpio := 0;
     startup_delay := 0; enable_high := false; enabled_at_boot := false;
     init_data := None |}.

Definition zero_desc : regulator_desc :=
  {| desc_name := None; desc_supply_name := None; desc_type := REGULATOR_VOLTAGE;
     desc_n_voltages := 0; desc_enable_time := 0 |}.

Definition zero_data : mv_vbus_data :=
  {| desc := zero_desc; dev := PTR None; d_gpio := 0; ena_gpio_invert := false;
     d_microvolts := 0 |}.

Definition zero_cfg : regulator_config :=
  {| cfg_init_data := None; cfg_driver_data := None; cfg_ena_gpio := 0;
     cfg_ena_gpio_invert := false; cfg_ena_gpio_flags := 0 |}.

(** Field assignments. *)
Definition set_supply_name (n : option string) (c : mv_vbus_config) : mv_vbus_config :=
  {| supply_name := n; input_supply := input_supply c; microvolts := microvolts c;
     gpio := gpio c; startup_delay := startup_delay c; enable_high := enable_high c;
     enabled_at_boot := enabled_at_boot c; init_data := init_data c |}.

Definition set_microvolts (v : Z) (c : mv_vbus_config) : mv_vbus_config :=
  {| supply_name := supply_name c; input_supply := input_supply c; microvolts := v;
     gpio := gpio c; startup_delay := startup_delay c; enable_high := enable_high c;
     enabled_at_boot := enabled_at_boot c; init_data := init_data c |}.

Definition set_gpio (g : Z) (c : mv_vbus_config) : mv_vbus_config :=
  {| supply_name := supply_name c; input_supply := input_supply c; microvolts := microvolts c;
     gpio := g; startup_delay := startup_delay c; enable_high := enable_high c;
     enabled_at_boot := enabled_at_boot c; init_data := init_data c |}.

Definition set_startup_delay (n : Z) (c : mv_vbus_config) : mv_vbus_config :=
  {| supply_name := supply_name c; input_supply := input_supply c; microvolts := microvolts c;
     gpio := gpio c; startup_delay := n; enable_high := enable_high c;
     enabled_at_boot := enabled_at_boot c; init_data := init_data c |}.

Definition set_enable_high (b : bool) (c : mv_vbus_config) : mv_vbus_config :=
  {| supply_name := supply_name c; input_supply := input_supply c; microvolts := microvolts c;
     gpio := gpio c; startup_delay := startup_delay c; enable_high := b;
     enabled_at_boot := enabled_at_boot c; init_data := init_data c |}.

Definition set_enabled_at_boot (b : bool) (c : mv_vbus_config) : mv_vbus_config :=
  {| supply_name := supply_name c; input_supply := input_supply c; microvolts := microvolts c;
     gpio := gpio c; startup_delay := startup_delay c; enable_high := enable_high c;
     enabled_at_boot := b; init_data := init_data c |}.

Definition set_init_data (i : option regulator_init_data) (c : mv_vbus_config) : mv_vbus_config :=
  {| supply_name := supply_name c; input_supply := input_supply c; microvolts := microvolts c;
     gpio := gpio c; startup_delay := startup_delay c; enable_high := enable_high c;
     enabled_at_boot := enabled_at_boot c; init_data := i |}.

Definition set_cfg_init_data (i : option regulator_init_data) (c : regulator_config) : regulator_config :=
  {| cfg_init_data := i; cfg_driver_data := cfg_driver_data c; cfg_ena_gpio := cfg_ena_gpio c;
     cfg_ena_gpio_invert := cfg_ena_gpio_invert c; cfg_ena_gpio_flags := cfg_ena_gpio_flags c |}.

Definition set_cfg_driver_data (p : option addr) (c : regulator_config) : regulator_config :=
  {| cfg_init_data := cfg_init_data c; cfg_driver_data := p; cfg_ena_gpio := cfg_ena_gpio c;
     cfg_ena_gpio_invert := cfg_ena_gpio_invert c; cfg_ena_gpio_flags := cfg_ena_gpio_flags c |}.

Definition set_cfg_ena_gpio (g : Z) (c : regulator_config) : regulator_config :=
  {| cfg_init_data := cfg_init_data c; cfg_driver_data := cfg_driver_data c; cfg_ena_gpio := g;
     cfg_ena_gpio_invert := cfg_ena_gpio_invert c; cfg_ena_gpio_flags := cfg_ena_gpio_flags c |}.

Definition set_cfg_ena_gpio_invert (b : bool) (c : regulator_config) : regulator_config :=
  {| cfg_init_data := cfg_init_data c; cfg_driver_data := cfg_driver_data c; cfg_ena_gpio := cfg_ena_gpio c;
     cfg_ena_gpio_invert := b; cfg_ena_gpio_flags := cfg_ena_gpio_flags c |}.

(** [cfg.ena_gpio_flags |= f] *)
Definition or_cfg_ena_gpio_flags (f : Z) (c : regulator_config) : regulator_config :=
  {| cfg_init_data := cfg_init_data c; cfg_driver_data := cfg_driver_data c; cfg_ena_gpio := cfg_ena_gpio c;
     cfg_ena_gpio_invert := cfg_ena_gpio_invert c;
     cfg_ena_gpio_flags := Z.lor (cfg_ena_gpio_flags c) f |}.

Definition set_apply_uV (b : bool) (i : regulator_init_data) : regulator_init_data :=
  let c := constraints i in
  {| constraints := {| constraints_name := constraints_name c; min_uV := min_uV c;
                       max_uV := max_uV c; apply_uV := b; boot_on := boot_on c |} |}.

Definition set_desc (f : regulator_desc -> regulator_desc) (d : mv_vbus_data) : mv_vbus_data :=
  {| desc := f (desc d); dev := dev d; d_gpio := d_gpio d;
     ena_gpio_invert := ena_gpio_invert d; d_microvolts := d_microvolts d |}.

Definition set_desc_name (p : option addr) (k : regulator_desc) : regulator_desc :=
  {| desc_name := p; desc_supply_name := desc_supply_name k; desc_type := desc_type k;
     desc_n_voltages := desc_n_voltages k; desc_enable_time := desc_enable_time k |}.

Definition set_desc_supply_name (p : option addr) (k : regulator_desc) : regulator_desc :=
  {| desc_name := desc_name k; desc_supply_name := p; desc_type := desc_type k;
     desc_n_voltages := desc_n_voltages k; desc_enable_time := desc_enable_time k |}.

Definition set_desc_type (t : regulator_type) (k : regulator_desc) : regulator_desc :=
  {| desc_name := desc_name k; desc_supply_name := desc_supply_name k; desc_type := t;
     desc_n_voltages := desc_n_voltages k; desc_enable_time := desc_enable_time k |}.

Definition set_desc_n_voltages (n : Z) (k : regulator_desc) : regulator_desc :=
  {| desc_name := desc_name k; desc_supply_name := desc_supply_name k; desc_type := desc_type k;
     desc_n_voltages := n; desc_enable_time := desc_enable_time k |}.

Definition set_desc_enable_time (n : Z) (k : regulator_desc) : regulator_desc :=
  {| desc_name := desc_name k; desc_supply_name := desc_supply_name k; desc_type := desc_type k;
     desc_n_voltages := desc_n_voltages k; desc_enable_time := n |}.

Definition set_dev (r : ptr_or_err (option addr)) (d : mv_vbus_data) : mv_vbus_data :=
  {| desc := desc d; dev := r; d_gpio := d_gpio d;
     ena_gpio_invert := ena_gpio_invert d; d_microvolts := d_microvolts d |}.

Definition set_d_gpio (g : Z) (d : mv_vbus_data) : mv_vbus_data :=
  {| desc := desc d; dev := dev d; d_gpio := g;
     ena_gpio_invert := ena_gpio_invert d; d_microvolts := d_microvolts d |}.

Definition set_ena_gpio_invert (b : bool) (d : mv_vbus_data) : mv_vbus_data :=
  {| desc := desc d; dev := dev d; d_gpio := d_gpio d;
     ena_gpio_invert := b; d_microvolts := d_microvolts d |}.

Definition set_d_microvolts (v : Z) (d : mv_vbus_data) : mv_vbus_data :=
  {| desc := desc d; dev := dev d; d_gpio := d_gpio d;
     ena_gpio_invert := ena_gpio_invert d; d_microvolts := v |}.

(** ** Kernel state *)

(** What the driver does to the outside, in program order. *)
Inductive event :=
  | EvKstrdup (p : addr)
  | EvKfree (p : option addr)
  | EvBadFree (p : addr)
  | EvGpioRequest (pin : Z) (flags : Z)
  | EvGpioFree (pin : Z)
  | EvGpioSet (pin : Z) (level : bool)
  | EvRegister (r : addr)
  | EvUnregister (r : addr).

Record kstate := {
  kstrings : gmap nat string;          (* live kmalloc'ed strings *)
  kconfigs : gmap nat mv_vbus_config;  (* device-managed config blocks *)
  kdata : gmap nat mv_vbus_data;       (* device-managed driver-data blocks *)
  gpio_owner : gmap Z (option nat);    (* requested pins, with their label pointer *)
  gpio_level : gmap Z bool;            (* level each output pin is driven to *)
  kregs : gmap nat regulator_dev;      (* regulators registered with the framework *)
  pdev_drvdata : gmap nat nat;         (* platform_set_drvdata slots, by device *)
  ktrace : list event
}.

Definition kstate_empty : kstate :=
  {| kstrings := ∅; kconfigs := ∅; kdata := ∅; gpio_owner := ∅; gpio_level := ∅;
     kregs := ∅; pdev_drvdata := ∅; ktrace := [] |}.

Definition upd_kstrings (f : gmap nat string -> gmap nat string) (s : kstate) : kstate :=
  {| kstrings := f (kstrings s); kconfigs := kconfigs s; kdata := kdata s;
     gpio_owner := gpio_owner s; gpio_level := gpio_level s; kregs := kregs s;
     pdev_drvdata := pdev_drvdata s; ktrace := ktrace s |}.

Definition upd_kconfigs (f : gmap nat mv_vbus_config -> gmap nat mv_vbus_config) (s : kstate) : kstate :=
  {| kstrings := kstrings s; kconfigs := f (kconfigs s); kdata := kdata s;
     gpio_owner := gpio_owner s; gpio_level := gpio_level s; kregs := kregs s;
     pdev_drvdata := pdev_drvdata s; ktrace := ktrace s |}.

Definition upd_kdata (f : gmap nat mv_vbus_data -> gmap nat mv_vbus_data) (s : kstate) : kstate :=
  {| kstrings := kstrings s; kconfigs := kconfigs s; kdata := f (kdata s);
     gpio_owner := gpio_owner s; gpio_level := gpio_level s; kregs := kregs s;
     pdev_drvdata := pdev_drvdata s; ktrace := ktrace s |}.

Definition upd_gpio_owner (f : gmap Z (option nat) -> gmap Z (option nat)) (s : kstate) : kstate :=
  {| kstrings := kstrings s; kconfigs := kconfigs s; kdata := kdata s;
     gpio_owner := f (gpio_owner s); gpio_level := gpio_level s; kregs := kregs s;
     pdev_drvdata := pdev_drvdata s; ktrace := ktrace s |}.

Definition upd_gpio_level (f : gmap Z bool -> gmap Z bool) (s : kstate) : kstate :=
  {| kstrings := kstrings s; kconfigs := kconfigs s; kdata := kdata s;
     gpio_owner := gpio_owner s; gpio_level := f (gpio_level s); kregs := kregs s;
     pdev_drvdata := pdev_drvdata s; ktrace := ktrace s |}.

Definition upd_kregs (f : gmap nat regulator_dev -> gmap nat regulator_dev) (s : kstate) : kstate :=
  {| kstrings := kstrings s; kconfigs := kconfigs s; kdata := kdata s;
     gpio_owner := gpio_owner s; gpio_level := gpio_level s; kregs := f (kregs s);
     pdev_drvdata := pdev_drvdata s; ktrace := ktrace s |}.

Definition upd_pdev_drvdata (f : gmap nat nat -> gmap nat nat) (s : kstate) : kstate :=
  {| kstrings := kstrings s; kconfigs := kconfigs s; kdata := kdata s;
     gpio_owner := gpio_owner s; gpio_level := gpio_level s; kregs := kregs s;
     pdev_drvdata := f (pdev_drvdata s); ktrace := ktrace s |}.

Definition log (e : event) (s : kstate) : kstate :=
  {| kstrings := kstrings s; kconfigs := kconfigs s; kdata := kdata s;
     gpio_owner := gpio_owner s; gpio_level := gpio_level s; kregs := kregs s;
     pdev_drvdata := pdev_drvdata s; ktrace := ktrace s ++ [e] |}.

(** ** The kernel monad

    A computation threads the kernel state; [None] is an oops (a NULL or
    stale pointer was dereferenced). *)

Definition M (A : Type) : Type := kstate -> option (A * kstate).

#[global] Instance M_ret : MRet M := λ A a s, Some (a, s).
#[global] Instance M_bind : MBind M := λ A B f m s,
  match m s with
  | Some (a, s') => f a s'
  | None => None
  end.

Definition modify (f : kstate -> kstate) : M unit := λ s, Some (tt, f s).
Definition oops {A : Type} : M A := λ _, None.

(** ** The environment of one run

    What the driver cannot control: the number of GPIOs of the
    architecture, which allocations succeed, what the GPIO chip answers
    to a request, and whether the regulator framework accepts the
    registration ([None]) or refuses it with an errno ([Some e], handed
    back as ERR_PTR(-e)). *)

Inductive alloc_site := SiteConfig | SiteData | SiteName | SiteInputSupply.

Record world := {
  ARCH_NR_GPIOS : Z;
  alloc_ok : alloc_site -> bool;
  gpio_chip_status : Z -> Z;
  regulator_register_status : option positive
}.

Section Driver.

Variable w : world.

(** ** Kernel services used by the driver *)

(** Modelled from the spec: the device-managed, zero-filled allocation
    devm_kzalloc(dev, sizeof(struct mv_vbus_config), GFP_KERNEL); NULL
    on AllocationFailure. *)
Definition devm_kzalloc_config : M (option addr) := λ s,
  if alloc_ok w SiteConfig then
    let p := fresh (dom (kconfigs s)) in
    Some (Some p, upd_kconfigs (insert p zero_config) s)
  else Some (None, s).

(** Modelled from the spec: the device-managed, zero-filled allocation
    devm_kzalloc(dev, sizeof(struct mv_vbus_data), GFP_KERNEL); NULL on
    AllocationFailure. *)
Definition devm_kzalloc_data : M (option addr) := λ s,
  if alloc_ok w SiteData then
    let p := fresh (dom (kdata s)) in
    Some (Some p, upd_kdata (insert p zero_data) s)
  else Some (None, s).

(** Writes through a pointer to a device-managed block. *)
Definition config_write (p : addr) (c : mv_vbus_config) : M unit :=
  modify (upd_kconfigs (insert p c)).

Definition data_load (p : addr) : M mv_vbus_data := λ s,
  match kdata s !! p with
  | Some d => Some (d, s)
  | None => None
  end.

Definition data_store (p : addr) (f : mv_vbus_data -> mv_vbus_data) : M unit := λ s,
  match kdata s !! p with
  | Some d => Some (tt, upd_kdata (insert p (f d)) s)
  | None => None
  end.

(** Modelled from the spec: the string duplication kstrdup(str,
    GFP_KERNEL); NULL for a NULL argument or on AllocationFailure. *)
Definition kstrdup (site : alloc_site) (str : option string) : M (option addr) := λ s,
  match str with
  | None => Some (None, s)
  | Some str =>
    if alloc_ok w site then
      let p := fresh (dom (kstrings s)) in
      Some (Some p, log (EvKstrdup p) (upd_kstrings (insert p str) s))
    else Some (None, s)
  end.

(** Modelled from the spec: the release kfree(p) of a duplicated
    string; nothing for NULL, and freeing a block that is not live (a
    double release) is recorded as [EvBadFree]. *)
Definition kfree (p : option addr) : M unit := λ s,
  match p with
  | None => Some (tt, log (EvKfree None) s)
  | Some a =>
    match kstrings s !! a with
    | Some _ => Some (tt, log (EvKfree (Some a)) (upd_kstrings (delete a) s))
    | None => Some (tt, log (EvBadFree a) s)
    end
  end.

(** Modelled from the spec: the hardware validity check of a pin
    number, within the architecture's range of GPIOs. *)
Definition gpio_is_valid (number : Z) : bool :=
  (0 <=? number) && (number <? ARCH_NR_GPIOS w).

(** Modelled from the spec: the GPIO collaborator's
    request(pin, direction=output, initial_level), which fails when the
    pin is invalid or already owned, or when the chip refuses. *)
Definition gpio_request_one (pin flags : Z) (label : option addr) : M Z := λ s,
  let s := log (EvGpioRequest pin flags) s in
  if negb (gpio_is_valid pin) then Some (- EINVAL, s)
  else match gpio_owner s !! pin with
       | Some _ => Some (- EBUSY, s)
       | None =>
         if gpio_chip_status w pin =? 0 then
           let s := upd_gpio_owner (insert pin label) s in
           Some (0, if Z.testbit flags 0 then s
                    else upd_gpio_level (insert pin (gpiof_init_level flags)) s)
         else Some (gpio_chip_status w pin, s)
       end.

(** Modelled from the spec: the GPIO collaborator's release(handle). *)
Definition gpio_free (pin : Z) : M unit :=
  modify (λ s, log (EvGpioFree pin) (upd_gpio_owner (delete pin) s)).

(** Modelled from the spec: the GPIO collaborator's set(handle, level). *)
Definition gpio_set_value_cansleep (pin : Z) (value : bool) : M unit :=
  modify (λ s, log (EvGpioSet pin value) (upd_gpio_level (insert pin value) s)).

(** Modelled from the spec: registration with the host framework.  The
    framework keeps the driver-data pointer and the init data; with
    [cfg.ena_gpio = 0] it does not touch any pin itself. *)
Definition regulator_register (cfg : regulator_config) : M (ptr_or_err (option addr)) := λ s,
  match regulator_register_status w with
  | Some e => Some (ERR_PTR (Z.neg e), s)
  | None =>
    let r := fresh (dom (kregs s)) in
    Some (PTR (Some r),
          log (EvRegister r)
            (upd_kregs (insert r {| reg_data := cfg_driver_data cfg;
                                    rdev_constraints := cfg_init_data cfg |}) s))
  end.

(** Modelled from the spec: unregistration; a NULL handle is ignored,
    anything that is not an active registration is a defect. *)
Definition regulator_unregister (rdev : ptr_or_err (option addr)) : M unit := λ s,
  match rdev with
  | PTR None => Some (tt, s)
  | PTR (Some r) =>
    match kregs s !! r with
    | Some _ => Some (tt, log (EvUnregister r) (upd_kregs (delete r) s))
    | None => None
    end
  | ERR_PTR _ => None
  end.

(** Modelled from the spec: the slot in which the lifecycle manager
    keeps the instance of a device between probe and remove. *)
Definition platform_set_drvdata (pdev : platform_device) (p : addr) : M unit :=
  modify (upd_pdev_drvdata (insert (pdev_id pdev) p)).

(** Modelled from the spec: reads the slot of [platform_set_drvdata]. *)
Definition platform_get_drvdata (pdev : platform_device) : M (option addr) := λ s,
  Some (pdev_drvdata s !! pdev_id pdev, s).

(** Modelled from the spec: rdev_get_drvdata(dev), the non-owning
    reference from the capability table back to the instance; it reads
    dev->reg_data. *)
Definition rdev_get_drvdata (rdev : addr) : M (option addr) := λ s,
  match kregs s !! rdev with
  | Some r => Some (reg_data r, s)
  | None => None
  end.

(** Dereference of a driver-data pointer that may be NULL. *)
Definition data_deref (p : option addr) : M mv_vbus_data :=
  match p with
  | Some p => data_load p
  | None => oops
  end.

(** Modelled from the spec: the value of a big-endian 32-bit property
    cell, given by its four bytes. *)
Definition be32_to_cpu (b : Z * Z * Z * Z) : Z :=
  let '(b0, b1, b2, b3) := b in
  Z.lor (Z.shiftl b0 24) (Z.lor (Z.shiftl b1 16) (Z.lor (Z.shiftl b2 8) b3)).

(** ** of_get_mv_vbus_config (lines 70-114)

    Called only on a device with a device-tree node, which the model
    takes as its argument.  Returns the populated structure; the block
    that holds it is device-managed, and written before each return with
    what the function has stored in it so far. *)
Definition of_get_mv_vbus_config (np : device_node) : M (ptr_or_err (option mv_vbus_config)) :=
  p ← devm_kzalloc_config;
  match p with
  | None => mret (ERR_PTR (- ENOMEM))
  | Some p =>
    let config := zero_config in
    let config := set_init_data (np_init_data np) config in
    match init_data config with
    | None => config_write p config;; mret (ERR_PTR (- EINVAL))
    | Some init_data =>
      let init_data := set_apply_uV false init_data in
      let config := set_init_data (Some init_data) config in
      let config := set_supply_name (constraints_name (constraints init_data)) config in
      if min_uV (constraints init_data) =? max_uV (constraints init_data) then
        let config := set_microvolts (min_uV (constraints init_data)) config in
        let config := if boot_on (constraints init_data)
                      then set_enabled_at_boot true config else config in
        let config := set_gpio (np_gpio np) config in
        if (gpio config =? - ENODEV) || (gpio config =? - EPROBE_DEFER) then
          config_write p config;; mret (ERR_PTR (- EPROBE_DEFER))
        else
          let config := match np_startup_delay_us np with
                        | Some delay => set_startup_delay (be32_to_cpu delay) config
                        | None => config
                        end in
          let config := if np_enable_active_high np
                        then set_enable_high true config else config in
          config_write p config;; mret (PTR (Some config))
      else
        config_write p config;; mret (ERR_PTR (- EINVAL))
    end
  end.

(** ** The regulator operations (lines 116-173)

    A regulator is named by the address of its regulator_dev. *)

Definition mv_vbus_get_voltage (rdev : addr) : M Z :=
  data ← rdev_get_drvdata rdev;
  d ← data_deref data;
  if negb (d_microvolts d =? 0) then mret (d_microvolts d)
  else mret (- EINVAL).

Definition mv_vbus_list_voltage (rdev : addr) (selector : Z) : M Z :=
  data ← rdev_get_drvdata rdev;
  if negb (selector =? 0) then mret (- EINVAL)
  else d ← data_deref data; mret (d_microvolts d).

Definition mv_vbus_gpio_set (rdev : addr) (enable : bool) : M Z :=
  drvdata ← rdev_get_drvdata rdev;
  match drvdata with
  | None => mret (- EINVAL)
  | Some p =>
    d ← data_load p;
    let gpio_val := if enable then negb (ena_gpio_invert d) else ena_gpio_invert d in
    gpio_set_value_cansleep (d_gpio d) gpio_val;;
    mret 0
  end.

Definition mv_vbus_enable_supply (rdev : addr) : M Z := mv_vbus_gpio_set rdev true.

Definition mv_vbus_disable_supply (rdev : addr) : M Z := mv_vbus_gpio_set rdev false.

Definition mv_vbus_suspend_disable (rdev : addr) : M Z := mv_vbus_disable_supply rdev.

Record regulator_ops := {
  enable : addr -> M Z;
  disable : addr -> M Z;
  set_suspend_disable : addr -> M Z;
  get_voltage : addr -> M Z;
  list_voltage : addr -> Z -> M Z
}.

Definition vbus_ops : regulator_ops :=
  {| enable := mv_vbus_enable_supply;
     disable := mv_vbus_disable_supply;
     set_suspend_disable := mv_vbus_suspend_disable;
     get_voltage := mv_vbus_get_voltage;
     list_voltage := mv_vbus_list_voltage |}.

(** ** Probe (lines 175-290)

    The body is cut at the points its gotos jump over: each stage ends
    in the next stage or in one of the exit labels. *)

(** The three exit labels of probe (lines 284-289). *)
Definition err (ret : Z) : M Z := mret ret.

Definition err_name (drvdata : addr) (ret : Z) : M Z :=
  d ← data_load drvdata;
  kfree (desc_name (desc d));;
  err ret.

Definition err_input (drvdata : addr) (ret : Z) : M Z :=
  d ← data_load drvdata;
  kfree (desc_supply_name (desc d));;
  err_name drvdata ret.

(** From regulator_register to the end of probe (lines 265-282). *)
Definition mv_vbus_reg_probe_register (pdev : platform_device) (config : mv_vbus_config)
    (drvdata : addr) (cfg : regulator_config) : M Z :=
  let cfg := set_cfg_init_data (init_data config) cfg in
  let cfg := set_cfg_driver_data (Some drvdata) cfg in
  r ← regulator_register cfg;
  data_store drvdata (set_dev r);;
  d ← data_load drvdata;
  match dev d with
  | ERR_PTR e => err_input drvdata e
  | PTR _ =>
    platform_set_drvdata pdev drvdata;;
    mret 0
  end.

(** From the n_voltages assignment to the pin request (lines 224-263). *)
Definition mv_vbus_reg_probe_gpio (pdev : platform_device) (config : mv_vbus_config)
    (drvdata : addr) : M Z :=
  let cfg := zero_cfg in
  (if negb (microvolts config =? 0)
   then data_store drvdata (set_desc (set_desc_n_voltages 1)) else mret tt);;
  data_store drvdata (set_d_microvolts (microvolts config));;
  if gpio_is_valid (gpio config) then
    let cfg := set_cfg_ena_gpio_invert (negb (enable_high config)) cfg in
    let cfg :=
      if enabled_at_boot config then
        if enable_high config then or_cfg_ena_gpio_flags GPIOF_OUT_INIT_HIGH cfg
        else or_cfg_ena_gpio_flags GPIOF_OUT_INIT_LOW cfg
      else
        if enable_high config then or_cfg_ena_gpio_flags GPIOF_OUT_INIT_LOW cfg
        else or_cfg_ena_gpio_flags GPIOF_OUT_INIT_HIGH cfg in
    d ← data_load drvdata;
    ret ← gpio_request_one (gpio config)
            (Z.lor GPIOF_DIR_OUT (cfg_ena_gpio_flags cfg)) (desc_name (desc d));
    if negb (ret =? 0) then err_name drvdata ret
    else
      data_store drvdata (set_d_gpio (gpio config));;
      data_store drvdata (set_ena_gpio_invert (cfg_ena_gpio_invert cfg));;
      let cfg := set_cfg_ena_gpio 0 cfg in
      mv_vbus_reg_probe_register pdev config drvdata cfg
  else
    err_input drvdata (- EINVAL).

(** From the allocation of the driver data to the input-supply name
    (lines 193-222). *)
Definition mv_vbus_reg_probe_alloc (pdev : platform_device) (config : mv_vbus_config) : M Z :=
  drvdata ← devm_kzalloc_data;
  match drvdata with
  | None => err (- ENOMEM)
  | Some drvdata =>
    name ← kstrdup SiteName (supply_name config);
    data_store drvdata (set_desc (set_desc_name name));;
    match name with
    | None => err (- ENOMEM)
    | Some _ =>
      data_store drvdata (set_desc (set_desc_type REGULATOR_VOLTAGE));;
      data_store drvdata (set_desc (set_desc_enable_time (startup_delay config)));;
      match input_supply config with
      | Some _ =>
        supply ← kstrdup SiteInputSupply (input_supply config);
        data_store drvdata (set_desc (set_desc_supply_name supply));;
        match supply with
        | None => err_name drvdata (- ENOMEM)
        | Some _ => mv_vbus_reg_probe_gpio pdev config drvdata
        end
      | None => mv_vbus_reg_probe_gpio pdev config drvdata
      end
    end
  end.

(** The configuration probe works from (lines 182-188): extracted from
    the device tree when the device has a node, the platform data
    otherwise. *)
Definition mv_vbus_reg_probe_config (pdev : platform_device)
    : M (ptr_or_err (option mv_vbus_config)) :=
  match of_node pdev with
  | Some np => of_get_mv_vbus_config np
  | None => mret (PTR (platform_data pdev))
  end.

Definition mv_vbus_reg_probe (pdev : platform_device) : M Z :=
  config ← mv_vbus_reg_probe_config pdev;
  match config with
  | ERR_PTR e => mret e
  | PTR None => mret (- ENOMEM)
  | PTR (Some config) => mv_vbus_reg_probe_alloc pdev config
  end.

(** ** Remove (lines 292-301) *)

Definition mv_vbus_reg_remove (pdev : platform_device) : M Z :=
  drvdata ← platform_get_drvdata pdev;
  d ← data_deref drvdata;
  regulator_unregister (dev d);;
  d ← data_deref drvdata;
  kfree (desc_supply_name (desc d));;
  d ← data_deref drvdata;
  kfree (desc_name (desc d));;
  mret 0.

End Driver.

(** ** The host framework's requests *)

(** Modelled from the spec: the host framework calling enable ([true])
    and disable ([false]) through the operations table, one call after
    the other on one regulator, giving up at the first error. *)
Fixpoint mv_vbus_requests (rdev : addr) (reqs : list bool) : M Z :=
  match reqs with
  | [] => mret 0
  | req :: reqs =>
    ret ← (if req then enable vbus_ops rdev else disable vbus_ops rdev);
    if negb (ret =? 0) then mret ret else mv_vbus_requests rdev reqs
  end.

(** ** Sample devices and environments *)

Definition world_ok : world :=
  {| ARCH_NR_GPIOS := 256; alloc_ok := λ _, true; gpio_chip_status := λ _, 0;
     regulator_register_status := None |}.

(** The framework refuses the registration with EBUSY. *)
Definition world_register_refused : world :=
  {| ARCH_NR_GPIOS := 256; alloc_ok := λ _, true; gpio_chip_status := λ _, 0;
     regulator_register_status := Some 16%positive |}.

(** The GPIO chip refuses the request with EBUSY. *)
Definition world_pin_refused : world :=
  {| ARCH_NR_GPIOS := 256; alloc_ok := λ _, true; gpio_chip_status := λ _, - EBUSY;
     regulator_register_status := None |}.

Definition vbus_init_data (min max : Z) : regulator_init_data :=
  {| constraints := {| constraints_name := Some "vbus"%string; min_uV := min;
                       max_uV := max; apply_uV := true; boot_on := false |} |}.

(** A 5 V rail on pin 42, active high, off at boot. *)
Definition vbus_node : device_node :=
  {| np_init_data := Some (vbus_init_data 5000000 5000000); np_gpio := 42;
     np_startup_delay_us := None; np_enable_active_high := true |}.

Definition vbus_pdev : platform_device :=
  {| pdev_id := 0%nat; of_node := Some vbus_node; platform_data := None |}.

(** The same rail with no voltage given: min = max = 0. *)
Definition unset_node : device_node :=
  {| np_init_data := Some (vbus_init_data 0 0); np_gpio := 42;
     np_startup_delay_us := None; np_enable_active_high := true |}.

Definition unset_pdev : platform_device :=
  {| pdev_id := 0%nat; of_node := Some unset_node; platform_data := None |}.

(** The pin controller has not been probed yet. *)
Definition deferred_node : device_node :=
  {| np_init_data := Some (vbus_init_data 5000000 5000000); np_gpio := - EPROBE_DEFER;
     np_startup_delay_us := None; np_enable_active_high := true |}.

Definition deferred_pdev : platform_device :=
  {| pdev_id := 0%nat; of_node := Some deferred_node; platform_data := None |}.

(** A board file's platform data, with an input supply. *)
Definition board_config : mv_vbus_config :=
  {| supply_name := Some "vbus"%string; input_supply := Some "vin"%string;
     microvolts := 5000000; gpio := 42; startup_delay := 0; enable_high := true;
     enabled_at_boot := false; init_data := Some (vbus_init_data 5000000 5000000) |}.

Definition board_pdev : platform_device :=
  {| pdev_id := 1%nat; of_node := None; platform_data := Some board_config |}.

(** The state a computation ends in, [kstate_empty] after an oops. *)
Definition state_after {A : Type} (r : option (A * kstate)) : kstate :=
  match r with
  | Some (_, s) => s
  | None => kstate_empty
  end.

(** No memory for the copy of the input-supply name. *)
Definition world_supply_alloc_fails : world :=
  {| ARCH_NR_GPIOS := 256;
     alloc_ok := λ site, match site with SiteInputSupply => false | _ => true end;
     gpio_chip_status := λ _, 0;
     regulator_register_status := None |}.

(** Platform data whose pin is the "not used" marker of the structure's
    documentation. *)
Definition badpin_config : mv_vbus_config :=
  {| supply_name := Some "vbus"%string; input_supply := None;
     microvolts := 5000000; gpio := - EINVAL; startup_delay := 0; enable_high := true;
     enabled_at_boot := false; init_data := Some (vbus_init_data 5000000 5000000) |}.

Definition badpin_pdev : platform_device :=
  {| pdev_id := 2%nat; of_node := None; platform_data := Some badpin_config |}.

(** The states the sample devices are in once probed. *)
Definition board_live : kstate :=
  state_after (mv_vbus_reg_probe world_ok board_pdev kstate_empty).

Definition vbus_live : kstate :=
  state_after (mv_vbus_reg_probe world_ok vbus_pdev kstate_empty).

Definition unset_live : kstate :=
  state_after (mv_vbus_reg_probe world_ok unset_pdev kstate_empty).

(** A regulator registered without driver data. *)
Definition orphan_state : kstate :=
  {| kstrings := ∅; kconfigs := ∅; kdata := ∅; gpio_owner := ∅; gpio_level := ∅;
     kregs := {[ 0%nat := {| reg_data := None; rdev_constraints := None |} ]};
     pdev_drvdata := ∅; ktrace := [] |}.

(** A device with neither a node nor platform data. *)
Definition bare_pdev : platform_device :=
  {| pdev_id := 3%nat; of_node := None; platform_data := None |}.

(** The board's rail after probe and remove. *)
Definition board_removed : kstate :=
  state_after (mv_vbus_reg_remove board_pdev board_live).

(** A rail on pin 7, active low, with a start-up delay of 256 us. *)
Definition timed_node : device_node :=
  {| np_init_data := Some (vbus_init_data 5000000 5000000); np_gpio := 7;
     np_startup_delay_us := Some (0, 0, 1, 0); np_enable_active_high := false |}.

Definition timed_pdev : platform_device :=
  {| pdev_id := 4%nat; of_node := Some timed_node; platform_data := None |}.

Definition timed_live : kstate :=
  state_after (mv_vbus_reg_probe world_ok timed_pdev kstate_empty).

(** ** Run summaries

    The addresses a probe run allocates, the flags it requests the pin
    with, and the driver data it leaves behind, as functions of the
    configuration and the state probe starts in.  The paths of probe are
    described with them. *)

Definition data_addr (s : kstate) : addr := fresh (dom (kdata s)).

Definition name_addr (s : kstate) : addr := fresh (dom (kstrings s)).

Definition strings_after_name (c : mv_vbus_config) (s : kstate) : gmap nat string :=
  match supply_name c with
  | Some n => <[name_addr s := n]> (kstrings s)
  | None => kstrings s
  end.

Definition supply_addr (c : mv_vbus_config) (s : kstate) : addr :=
  fresh (dom (strings_after_name c s)).

Definition supply_ptr (c : mv_vbus_config) (s : kstate) : option addr :=
  match input_supply c with
  | Some _ => Some (supply_addr c s)
  | None => None
  end.

Definition strings_after_supply (c : mv_vbus_config) (s : kstate) : gmap nat string :=
  match input_supply c with
  | Some sup => <[supply_addr c s := sup]> (strings_after_name c s)
  | None => strings_after_name c s
  end.

(** The input-supply string alone, on top of the strings probe started with. *)
Definition strings_supply_only (c : mv_vbus_config) (s : kstate) : gmap nat string :=
  match input_supply c with
  | Some sup => <[supply_addr c s := sup]> (kstrings s)
  | None => kstrings s
  end.

Definition alloc_events (c : mv_vbus_config) (s : kstate) : list event :=
  EvKstrdup (name_addr s) ::
  match input_supply c with
  | Some _ => [EvKstrdup (supply_addr c s)]
  | None => []
  end.

(** The initial level of the table: high exactly when the boot state
    and the polarity agree. *)
Definition initial_level (c : mv_vbus_config) : bool :=
  Bool.eqb (enabled_at_boot c) (enable_high c).

Definition request_flags (c : mv_vbus_config) : Z :=
  if initial_level c then GPIOF_OUT_INIT_HIGH else GPIOF_OUT_INIT_LOW.

Definition live_data (c : mv_vbus_config) (s : kstate) (r : addr) : mv_vbus_data :=
  {| desc := {| desc_name := Some (name_addr s);
                desc_supply_name := supply_ptr c s;
                desc_type := REGULATOR_VOLTAGE;
                desc_n_voltages := if microvolts c =? 0 then 0 else 1;
                desc_enable_time := startup_delay c |};
     dev := PTR (Some r);
     d_gpio := gpio c;
     ena_gpio_invert := negb (enable_high c);
     d_microvolts := microvolts c |}.

(** The regulator handle stored for a probed device. *)
Definition pdev_rdev (pdev : platform_device) (s : kstate) : option addr :=
  p ← pdev_drvdata s !! pdev_id pdev;
  d ← kdata s !! p;
  match dev d with
  | PTR r => r
  | ERR_PTR _ => None
  end.

(** The driver data behind a registered regulator. *)
Definition core_of (s : kstate) (rdev : addr) : option mv_vbus_data :=
  r ← kregs s !! rdev;
  p ← reg_data r;
  kdata s !! p.

(** What of_get_mv_vbus_config returns: the structure it populates from
    a node, and the reasons for each of its error codes. *)
Definition of_config_ok (w : world) (np : device_node) (c : mv_vbus_config) : Prop :=
  alloc_ok w SiteConfig = true ∧
  ∃ i, np_init_data np = Some i ∧
       min_uV (constraints i) = max_uV (constraints i) ∧
       np_gpio np ≠ - ENODEV ∧ np_gpio np ≠ - EPROBE_DEFER ∧
       supply_name c = constraints_name (constraints i) ∧
       input_supply c = None ∧
       microvolts c = min_uV (constraints i) ∧
       gpio c = np_gpio np ∧
       enable_high c = np_enable_active_high np ∧
       enabled_at_boot c = boot_on (constraints i) ∧
       startup_delay c = match np_startup_delay_us np with
                         | Some delay => be32_to_cpu delay
                         | None => 0
                         end ∧
       init_data c = Some (set_apply_uV false i).

Definition of_config_err (w : world) (np : device_node) (e : Z) : Prop :=
  (e = - ENOMEM ∧ alloc_ok w SiteConfig = false) ∨
  (e = - EINVAL ∧ alloc_ok w SiteConfig = true ∧
   match np_init_data np with
   | Some i => min_uV (constraints i) ≠ max_uV (constraints i)
   | None => True
   end) ∨
  (e = - EPROBE_DEFER ∧ alloc_ok w SiteConfig = true ∧
   (∃ i, np_init_data np = Some i ∧ min_uV (constraints i) = max_uV (constraints i)) ∧
   (np_gpio np = - ENODEV ∨ np_gpio np = - EPROBE_DEFER)).

(** Two states that differ at most in the configuration blocks. *)
Definition same_but_configs (s s0 : kstate) : Prop :=
  kstrings s0 = kstrings s ∧ kdata s0 = kdata s ∧ gpio_owner s0 = gpio_owner s ∧
  gpio_level s0 = gpio_level s ∧ kregs s0 = kregs s ∧
  pdev_drvdata s0 = pdev_drvdata s ∧ ktrace s0 = ktrace s.

(** The state [s'] a successful probe of [pdev] with configuration [c]
    leaves, started in [s]: the instance is live. *)
Definition live (pdev : platform_device) (c : mv_vbus_config) (s s' : kstate) : Prop :=
  kdata s' = <[data_addr s := live_data c s (fresh (dom (kregs s)))]> (kdata s) ∧
  kstrings s' = strings_after_supply c s ∧
  gpio_owner s' = <[gpio c := Some (name_addr s)]> (gpio_owner s) ∧
  gpio_level s' = <[gpio c := initial_level c]> (gpio_level s) ∧
  kregs s' = <[fresh (dom (kregs s)) :=
                 {| reg_data := Some (data_addr s);
                    rdev_constraints := init_data c |}]> (kregs s) ∧
  pdev_drvdata s' = <[pdev_id pdev := data_addr s]> (pdev_drvdata s) ∧
  ktrace s' = ktrace s ++ alloc_events c s ++
              [EvGpioRequest (gpio c) (request_flags c);
               EvRegister (fresh (dom (kregs s)))].

(** The kfree'd addresses of a trace, in order. *)
Definition freed (evs : list event) : list addr :=
  omap (λ e, match e with EvKfree (Some a) => Some a | _ => None end) evs.

Section Paths.

Variable w : world.

(** All allocations of probe succeed. *)
Definition allocs_ok (c : mv_vbus_config) : Prop :=
  alloc_ok w SiteData = true ∧ is_Some (supply_name c) ∧ alloc_ok w SiteName = true ∧
  (is_Some (input_supply c) → alloc_ok w SiteInputSupply = true).

(** The pin request is reached and answered with [ret]. *)
Definition pin_request (c : mv_vbus_config) (s : kstate) (ret : Z) : Prop :=
  allocs_ok c ∧ gpio_is_valid w (gpio c) = true ∧
  match gpio_owner s !! gpio c with
  | Some _ => ret = - EBUSY
  | None => ret = gpio_chip_status w (gpio c)
  end.

(** The only driver-data block a run writes is the one it allocated. *)
Definition blocks_kept (s s' : kstate) : Prop :=
  ∃ d, kdata s' = <[data_addr s := d]> (kdata s).

(** The seven ways through probe once it has its configuration [c],
    from state [s] to return value and final state.  The store of
    configuration blocks is left out: only the first stage writes it. *)
Inductive probe_path (pdev : platform_device) (c : mv_vbus_config) (s : kstate)
    : Z -> kstate -> Prop :=
  | path_data_alloc s' :
      alloc_ok w SiteData = false ->
      same_but_configs s s' ->
      probe_path pdev c s (- ENOMEM) s'
  | path_name s' :
      alloc_ok w SiteData = true ->
      supply_name c = None ∨ alloc_ok w SiteName = false ->
      blocks_kept s s' ->
      kstrings s' = kstrings s -> gpio_owner s' = gpio_owner s ->
      gpio_level s' = gpio_level s -> kregs s' = kregs s ->
      pdev_drvdata s' = pdev_drvdata s -> ktrace s' = ktrace s ->
      probe_path pdev c s (- ENOMEM) s'
  | path_input_supply s' :
      alloc_ok w SiteData = true -> is_Some (supply_name c) ->
      alloc_ok w SiteName = true ->
      is_Some (input_supply c) -> alloc_ok w SiteInputSupply = false ->
      blocks_kept s s' ->
      kstrings s' = kstrings s -> gpio_owner s' = gpio_owner s ->
      gpio_level s' = gpio_level s -> kregs s' = kregs s ->
      pdev_drvdata s' = pdev_drvdata s ->
      ktrace s' = ktrace s ++ [EvKstrdup (name_addr s); EvKfree (Some (name_addr s))] ->
      probe_path pdev c s (- ENOMEM) s'
  | path_pin_invalid s' :
      allocs_ok c -> gpio_is_valid w (gpio c) = false ->
      blocks_kept s s' ->
      kstrings s' = kstrings s -> gpio_owner s' = gpio_owner s ->
      gpio_level s' = gpio_level s -> kregs s' = kregs s ->
      pdev_drvdata s' = pdev_drvdata s ->
      ktrace s' = ktrace s ++ alloc_events c s ++
                  [EvKfree (supply_ptr c s); EvKfree (Some (name_addr s))] ->
      probe_path pdev c s (- EINVAL) s'
  | path_pin_request ret s' :
      pin_request c s ret -> ret ≠ 0 ->
      blocks_kept s s' ->
      kstrings s' = strings_supply_only c s -> gpio_owner s' = gpio_owner s ->
      gpio_level s' = gpio_level s -> kregs s' = kregs s ->
      pdev_drvdata s' = pdev_drvdata s ->
      ktrace s' = ktrace s ++ alloc_events c s ++
                  [EvGpioRequest (gpio c) (request_flags c); EvKfree (Some (name_addr s))] ->
      probe_path pdev c s ret s'
  | path_register e s' :
      pin_request c s 0 -> gpio_owner s !! gpio c = None ->
      regulator_register_status w = Some e ->
      blocks_kept s s' ->
      kstrings s' = kstrings s ->
      gpio_owner s' = <[gpio c := Some (name_addr s)]> (gpio_owner s) ->
      gpio_level s' = <[gpio c := initial_level c]> (gpio_level s) ->
      kregs s' = kregs s -> pdev_drvdata s' = pdev_drvdata s ->
      ktrace s' = ktrace s ++ alloc_events c s ++
                  [EvGpioRequest (gpio c) (request_flags c);
                   EvKfree (supply_ptr c s); EvKfree (Some (name_addr s))] ->
      probe_path pdev c s (Z.neg e) s'
  | path_live s' :
      pin_request c s 0 -> gpio_owner s !! gpio c = None ->
      regulator_register_status w = None ->
      live pdev c s s' ->
      probe_path pdev c s 0 s'.

End Paths.

(** The pin writes a sequence of requests makes on the instance [d]. *)
Definition request_events (d : mv_vbus_data) (reqs : list bool) : list event :=
  map (λ req, EvGpioSet (d_gpio d) (xorb req (ena_gpio_invert d))) reqs.

(** * Proofs *)

(** ** Fresh addresses *)

Lemma fresh_lookup {V} (m : gmap nat V) : m !! fresh (dom m) = None.
Proof. apply not_elem_of_dom, is_fresh. Qed.

Lemma fresh_insert_ne {V} (m : gmap nat V) a v : fresh (dom (<[a:=v]> m)) ≠ a.
Proof.
  intros E. pose proof (fresh_lookup (<[a:=v]> m)) as H.
  rewrite E, lookup_insert_eq in H. discriminate.
Qed.

Lemma delete_fresh_insert {V} (m : gmap nat V) v :
  delete (fresh (dom m)) (<[fresh (dom m) := v]> m) = m.
Proof. apply delete_insert_id, fresh_lookup. Qed.

Lemma delete_under_fresh {V} (m : gmap nat V) a v v' :
  m !! a = None ->
  delete a (<[fresh (dom (<[a:=v]> m)) := v']> (<[a:=v]> m))
  = <[fresh (dom (<[a:=v]> m)) := v']> m.
Proof.
  intros H.
  rewrite delete_insert_ne by (intros E; symmetry in E; by apply fresh_insert_ne in E).
  by rewrite delete_insert_id.
Qed.

(** ** Symbolic execution of the driver *)

Ltac unfold_m := unfold mbind, M_bind, mret, M_ret, modify, oops, err in *.

Ltac kunfold :=
  unfold mv_vbus_reg_probe_alloc, mv_vbus_reg_probe_gpio,
    mv_vbus_reg_probe_register, err_input, err_name, err;
  unfold regulator_register, gpio_request_one, kstrdup, kfree, data_store, data_load,
    devm_kzalloc_data, platform_set_drvdata;
  unfold_m.

Ltac ksimpl :=
  repeat (progress (simpl;
                    rewrite ?lookup_insert_eq, ?delete_fresh_insert;
                    rewrite ?lookup_insert_ne by apply fresh_insert_ne)).

Ltac kmaps :=
  simpl; unfold same_but_configs, blocks_kept, live, pin_request, allocs_ok, live_data, alloc_events, supply_ptr,
    strings_after_supply, strings_supply_only, supply_addr, strings_after_name, name_addr,
    data_addr, request_flags, initial_level;
  simpl;
  repeat match goal with H : _ = _ |- _ => rewrite H end;
  rewrite ?insert_insert_eq, ?delete_fresh_insert;
  rewrite ?delete_under_fresh by apply fresh_lookup;
  rewrite <- ?app_assoc; simpl.

Ltac kret := eexists _, _; split; [reflexivity|].

Ltac kfinish :=
  kmaps; first [ done | by eauto | naive_solver ].

Section Probe.

Variable w : world.

(** Probe always returns once it has its configuration, along one of
    the seven paths. *)
Lemma probe_alloc_spec pdev c s :
  ∃ r s', mv_vbus_reg_probe_alloc w pdev c s = Some (r, s') ∧ probe_path w pdev c s r s'.
Proof.
  kunfold.
  destruct (alloc_ok w SiteData) eqn:Hdata; ksimpl; [| kret; apply path_data_alloc; kfinish].
  destruct (supply_name c) as [n|] eqn:Hn; ksimpl; [| kret; apply path_name; kfinish].
  destruct (alloc_ok w SiteName) eqn:Hname; ksimpl; [| kret; apply path_name; kfinish].
  destruct (input_supply c) as [sup|] eqn:Hsup; ksimpl;
  [destruct (alloc_ok w SiteInputSupply) eqn:Hasup; ksimpl;
   [| kret; apply path_input_supply; kfinish] |];
  (destruct (microvolts c =? 0) eqn:Hmv; ksimpl;
   (destruct (gpio_is_valid w (gpio c)) eqn:Hv; ksimpl;
    [| kret; apply path_pin_invalid; kfinish]);
   destruct (enabled_at_boot c) eqn:Hboot, (enable_high c) eqn:Hhigh; ksimpl;
   (destruct (gpio_owner s !! gpio c) eqn:Hown; ksimpl;
    [kret; apply path_pin_request; kfinish |]);
   (destruct (gpio_chip_status w (gpio c) =? 0) eqn:Hst; ksimpl; rewrite ?Hst; ksimpl;
    [apply Z.eqb_eq in Hst
    | apply Z.eqb_neq in Hst; kret; apply path_pin_request; kfinish]);
   (destruct (regulator_register_status w) eqn:Hreg; ksimpl;
    [kret; eapply path_register; kfinish | kret; apply path_live; kfinish])).
Qed.

(** The paths do not depend on the configuration blocks. *)
Lemma probe_path_transfer pdev c s s0 r s' :
  same_but_configs s s0 -> probe_path w pdev c s0 r s' -> probe_path w pdev c s r s'.
Proof.
  intros (Hk & Hd & Ho & Hl & Hr & Hp & Ht) Hpath.
  assert (Hda : data_addr s0 = data_addr s) by (unfold data_addr; by rewrite Hd).
  assert (Hna : name_addr s0 = name_addr s) by (unfold name_addr; by rewrite Hk).
  assert (Hsn : strings_after_name c s0 = strings_after_name c s)
    by (unfold strings_after_name; by rewrite Hk, Hna).
  assert (Hsa : supply_addr c s0 = supply_addr c s) by (unfold supply_addr; by rewrite Hsn).
  assert (Hsp : supply_ptr c s0 = supply_ptr c s) by (unfold supply_ptr; by rewrite Hsa).
  assert (Hss : strings_after_supply c s0 = strings_after_supply c s)
    by (unfold strings_after_supply; by rewrite Hsn, Hsa).
  assert (Hso : strings_supply_only c s0 = strings_supply_only c s)
    by (unfold strings_supply_only; by rewrite Hk, Hsa).
  assert (Hae : alloc_events c s0 = alloc_events c s)
    by (unfold alloc_events; by rewrite Hna, Hsa).
  assert (Hpr : ∀ ret, pin_request w c s0 ret -> pin_request w c s ret)
    by (unfold pin_request; intros ret; by rewrite Ho).
  assert (Hld : ∀ r, live_data c s0 r = live_data c s r)
    by (intros r0; unfold live_data; by rewrite Hna, Hsp).
  destruct Hpath;
    [ apply path_data_alloc | apply path_name | apply path_input_supply
    | apply path_pin_invalid | apply path_pin_request | eapply path_register
    | apply path_live ];
    unfold blocks_kept, same_but_configs, live in *;
    rewrite <- ?Hld, <- ?Hae, <- ?Hss, <- ?Hso, <- ?Hsp, <- ?Hsa, <- ?Hsn, <- ?Hna, <- ?Hda,
      <- ?Hk, <- ?Hd, <- ?Ho, <- ?Hl, <- ?Hr, <- ?Hp, <- ?Ht;
    eauto.
Qed.

Lemma config_write_frame p c s :
  ∃ s0, config_write p c s = Some (tt, s0) ∧ same_but_configs s s0.
Proof. eexists; split; [reflexivity|]. by repeat split. Qed.

Lemma of_get_frame np s :
  ∃ r s0, of_get_mv_vbus_config w np s = Some (r, s0) ∧ same_but_configs s s0.
Proof.
  unfold of_get_mv_vbus_config, devm_kzalloc_config, config_write. unfold_m.
  destruct (alloc_ok w SiteConfig); simpl; [| by eexists _, _].
  destruct (np_init_data np); simpl; [| by eexists _, _].
  destruct (_ =? _); simpl; [| by eexists _, _].
  destruct (_ || _); simpl; by eexists _, _.
Qed.

Lemma probe_config_frame pdev s :
  ∃ r s0, mv_vbus_reg_probe_config w pdev s = Some (r, s0) ∧ same_but_configs s s0.
Proof.
  unfold mv_vbus_reg_probe_config. destruct (of_node pdev); [apply of_get_frame|].
  by eexists _, _.
Qed.

Lemma probe_config_same pdev s r s0 :
  mv_vbus_reg_probe_config w pdev s = Some (r, s0) -> same_but_configs s s0.
Proof.
  intros H. destruct (probe_config_frame pdev s) as (r' & s0' & H' & Hs). congruence.
Qed.

(** Probe, from the configuration it found, follows one of the paths. *)
Lemma probe_run pdev s c s0 :
  mv_vbus_reg_probe_config w pdev s = Some (PTR (Some c), s0) ->
  ∃ r s', mv_vbus_reg_probe w pdev s = Some (r, s') ∧ probe_path w pdev c s r s'.
Proof.
  intros Hc. destruct (probe_alloc_spec pdev c s0) as (r & s' & Hrun & Hpath).
  exists r, s'. split.
  - unfold mv_vbus_reg_probe. unfold_m. by rewrite Hc.
  - eapply probe_path_transfer; [|done]. by eapply probe_config_same.
Qed.

Lemma probe_stops pdev s e s0 :
  mv_vbus_reg_probe_config w pdev s = Some (ERR_PTR e, s0) ->
  mv_vbus_reg_probe w pdev s = Some (e, s0).
Proof. intros Hc. unfold mv_vbus_reg_probe. unfold_m. by rewrite Hc. Qed.

Lemma pin_request_fun c s r1 r2 : pin_request w c s r1 -> pin_request w c s r2 -> r1 = r2.
Proof.
  unfold pin_request. intros (_ & _ & H1) (_ & _ & H2).
  destruct (gpio_owner s !! gpio c); congruence.
Qed.

Lemma pin_request_free c s : pin_request w c s 0 -> gpio_owner s !! gpio c = None.
Proof.
  unfold pin_request. intros (_ & _ & H). by destruct (gpio_owner s !! gpio c).
Qed.

Lemma supply_addr_ne c s : is_Some (supply_name c) -> supply_addr c s ≠ name_addr s.
Proof.
  intros [n Hn]. unfold supply_addr, strings_after_name. rewrite Hn. apply fresh_insert_ne.
Qed.

Lemma probe_success_live pdev s c s0 s1 :
  mv_vbus_reg_probe_config w pdev s = Some (PTR (Some c), s0) ->
  mv_vbus_reg_probe w pdev s = Some (0, s1) ->
  pin_request w c s 0 ∧ regulator_register_status w = None ∧ live pdev c s s1.
Proof.
  intros Hc Hp.
  destruct (probe_run _ _ _ _ Hc) as (r & s' & Hrun & Hpath).
  rewrite Hp in Hrun. injection Hrun as <- <-.
  inversion Hpath; subst; try done.
Qed.

Lemma live_core pdev c s s1 :
  live pdev c s s1 ->
  pdev_rdev pdev s1 = Some (fresh (dom (kregs s))) ∧
  core_of s1 (fresh (dom (kregs s))) = Some (live_data c s (fresh (dom (kregs s)))).
Proof.
  intros (Hd & _ & _ & _ & Hr & Hp & _).
  unfold pdev_rdev, core_of. rewrite Hd, Hr, Hp.
  rewrite !lookup_insert_eq. simpl. by rewrite !lookup_insert_eq.
Qed.

End Probe.

(** Discards a path of probe that the hypotheses exclude. *)
Ltac path_absurd :=
  exfalso;
  repeat match goal with
         | H1 : pin_request _ _ _ ?r, H2 : pin_request _ _ _ 0 |- _ =>
           pose proof (pin_request_fun _ _ _ _ _ H1 H2); clear H1
         end;
  unfold pin_request, allocs_ok in *;
  repeat match goal with
         | H : _ ∧ _ |- _ => destruct H
         | H : ?P -> _, H' : ?P |- _ => specialize (H H')
         end;
  repeat match goal with
         | H : is_Some _ |- _ => destruct H
         | H : _ ∨ _ |- _ => destruct H
         end;
  congruence.

(** ** The operations on a registered instance *)

Lemma get_voltage_core s r d :
  core_of s r = Some d ->
  mv_vbus_get_voltage r s = Some (if d_microvolts d =? 0 then - EINVAL else d_microvolts d, s).
Proof.
  unfold core_of, mv_vbus_get_voltage, rdev_get_drvdata, data_deref, data_load. unfold_m.
  destruct (kregs s !! r) as [rd|]; simpl; [|done].
  destruct (reg_data rd) as [p|]; simpl; [|done].
  intros ->. by destruct (d_microvolts d =? 0).
Qed.

Lemma list_voltage_core s r d selector :
  core_of s r = Some d ->
  mv_vbus_list_voltage r selector s
  = Some (if selector =? 0 then d_microvolts d else - EINVAL, s).
Proof.
  unfold core_of, mv_vbus_list_voltage, rdev_get_drvdata, data_deref, data_load. unfold_m.
  destruct (kregs s !! r) as [rd|]; simpl; [|done].
  destruct (reg_data rd) as [p|]; simpl; [|done].
  intros Hd. destruct (selector =? 0); simpl; [|done]. by rewrite Hd.
Qed.

Lemma gpio_set_core s r d enable :
  core_of s r = Some d ->
  mv_vbus_gpio_set r enable s
  = Some (0, log (EvGpioSet (d_gpio d) (xorb enable (ena_gpio_invert d)))
               (upd_gpio_level (insert (d_gpio d) (xorb enable (ena_gpio_invert d))) s)).
Proof.
  unfold core_of, mv_vbus_gpio_set, rdev_get_drvdata, data_load, gpio_set_value_cansleep.
  unfold_m.
  destruct (kregs s !! r) as [rd|]; simpl; [|done].
  destruct (reg_data rd) as [p|]; simpl; [|done].
  intros ->. by destruct enable, (ena_gpio_invert d).
Qed.

Lemma remove_live pdev c s s1 :
  is_Some (supply_name c) ->
  live pdev c s s1 ->
  ∃ s2, mv_vbus_reg_remove pdev s1 = Some (0, s2) ∧
        ktrace s2 = ktrace s1 ++ [EvUnregister (fresh (dom (kregs s)));
                                  EvKfree (supply_ptr c s); EvKfree (Some (name_addr s))] ∧
        kregs s2 = kregs s ∧ kstrings s2 = kstrings s ∧
        gpio_owner s2 = gpio_owner s1 ∧ gpio_level s2 = gpio_level s1 ∧
        kdata s2 = kdata s1 ∧ pdev_drvdata s2 = pdev_drvdata s1.
Proof.
  intros [n Hn] (Hd & Hk & Ho & Hl & Hr & Hp & Ht).
  unfold mv_vbus_reg_remove, platform_get_drvdata, data_deref, data_load,
    regulator_unregister, kfree. unfold_m.
  rewrite Hp, lookup_insert_eq. simpl.
  rewrite Hd, lookup_insert_eq. simpl.
  rewrite Hr, lookup_insert_eq. simpl.
  rewrite Hd, lookup_insert_eq. simpl.
  unfold supply_ptr, strings_after_supply, supply_addr, strings_after_name, name_addr in *.
  rewrite Hn in *.
  destruct (input_supply c) as [sup|] eqn:Hsup; simpl; rewrite ?Hk; ksimpl;
    rewrite ?Hd, ?Hk; ksimpl; rewrite ?Hd, ?Hk; ksimpl.
  all: unfold name_addr; ksimpl.
  all: eexists; (split; [reflexivity|]); simpl.
  all: rewrite <- ?app_assoc; simpl.
  all: rewrite Hr, ?Hk; rewrite ?delete_fresh_insert; done.
Qed.

(** ** Configuration extraction *)

Lemma of_get_result w np s :
  ∃ r s', of_get_mv_vbus_config w np s = Some (r, s') ∧
          match r with
          | ERR_PTR e => of_config_err w np e
          | PTR None => False
          | PTR (Some c) => of_config_ok w np c
          end.
Proof.
  unfold of_get_mv_vbus_config, devm_kzalloc_config, config_write, of_config_err, of_config_ok.
  unfold_m.
  destruct (alloc_ok w SiteConfig) eqn:Ha; simpl; [| eexists _, _; split; [done|]; by left].
  destruct (np_init_data np) as [i|] eqn:Hi; simpl;
    [| eexists _, _; split; [done|]; right; left; done].
  destruct (min_uV (constraints i) =? max_uV (constraints i)) eqn:Hmm; simpl;
    [apply Z.eqb_eq in Hmm
    | apply Z.eqb_neq in Hmm; eexists _, _; split; [done|]; right; left; done].
  destruct (boot_on (constraints i)) eqn:Hb; simpl;
    (destruct (np_gpio np =? - ENODEV) eqn:H1; simpl;
     [apply Z.eqb_eq in H1; eexists _, _; split; [done|]; right; right; eauto 10 |];
     destruct (np_gpio np =? - EPROBE_DEFER) eqn:H2; simpl;
     [apply Z.eqb_eq in H2; eexists _, _; split; [done|]; right; right; eauto 10 |];
     apply Z.eqb_neq in H1, H2;
     eexists _, _; split; [done|]; split; [done|]; exists i;
     destruct (np_startup_delay_us np), (np_enable_active_high np); simpl; rewrite ?Hb; done).
Qed.

(** ** Traces of probe *)

(** Decides a membership in an explicit list of events whose head
    constructors differ from the element's. *)
Ltac list_absurd H :=
  repeat (apply elem_of_cons in H as [H|H]; [discriminate H|]);
  by apply elem_of_nil in H.

Lemma alloc_events_kstrdup c s e :
  e ∈ alloc_events c s -> ∃ a, e = EvKstrdup a.
Proof.
  unfold alloc_events. intros H.
  apply elem_of_cons in H as [->|H]; [eauto|].
  destruct (input_supply c); [|by apply elem_of_nil in H].
  apply elem_of_cons in H as [->|H]; [eauto|]. by apply elem_of_nil in H.
Qed.

Lemma freed_alloc_events c s l : freed (alloc_events c s ++ l) = freed l.
Proof. unfold alloc_events. by destruct (input_supply c). Qed.

(** * The claims *)

(** C1 (as amended).  When the framework refuses the registration after
    the pin was acquired, probe frees the input-supply string and the
    name string, leaves no registration and no driver-data slot behind,
    and returns the framework's error code.  The pin is not released:
    it was free before probe and is still owned, under the freed name
    as label, when probe returns. *)
Theorem probe_failed_registration_keeps_pin w pdev s c s0 e :
  mv_vbus_reg_probe_config w pdev s = Some (PTR (Some c), s0) ->
  pin_request w c s 0 ->
  regulator_register_status w = Some e ->
  ∃ s', mv_vbus_reg_probe w pdev s = Some (Z.neg e, s') ∧
        kstrings s' = kstrings s ∧
        kregs s' = kregs s ∧ pdev_drvdata s' = pdev_drvdata s ∧
        ktrace s' = ktrace s ++ alloc_events c s ++
                    [EvGpioRequest (gpio c) (request_flags c);
                     EvKfree (supply_ptr c s); EvKfree (Some (name_addr s))] ∧
        gpio_owner s !! gpio c = None ∧
        gpio_owner s' !! gpio c = Some (Some (name_addr s)).
Proof.
  intros Hc Hpin Hreg.
  destruct (probe_run w _ _ _ _ Hc) as (r & s' & Hrun & Hpath).
  destruct Hpath; try path_absurd.
  assert (e0 = e) as -> by congruence.
  exists s'. repeat split; try done.
  match goal with H : gpio_owner s' = _ |- _ => rewrite H end.
  apply lookup_insert_eq.
Qed.

(** C3 (as amended).  On every path of probe nothing is freed twice and
    nothing is freed that is not live.  When the failing step is the
    device-data allocation or the name duplication there is nothing to
    release and nothing is released; when it is the input-supply
    duplication the name is freed; when the pin is invalid or the
    registration is refused, the input-supply string and the name are
    each freed once, so the live strings are those from before probe;
    when the pin request fails the name is freed and no pin changes
    owner.  A failed probe leaves no registration.  The pin acquired
    before a refused registration stays owned. *)
Theorem probe_failure_unwinding w pdev s c s0 :
  mv_vbus_reg_probe_config w pdev s = Some (PTR (Some c), s0) ->
  ∃ r s' evs,
    mv_vbus_reg_probe w pdev s = Some (r, s') ∧ ktrace s' = ktrace s ++ evs ∧
    (∀ a, EvBadFree a ∉ evs) ∧ NoDup (freed evs) ∧
    (r ≠ 0 -> kregs s' = kregs s ∧ pdev_drvdata s' = pdev_drvdata s) ∧
    (alloc_ok w SiteData = false ->
     r = - ENOMEM ∧ evs = [] ∧ kstrings s' = kstrings s ∧ gpio_owner s' = gpio_owner s) ∧
    (alloc_ok w SiteData = true -> supply_name c = None ∨ alloc_ok w SiteName = false ->
     r = - ENOMEM ∧ evs = [] ∧ kstrings s' = kstrings s ∧ gpio_owner s' = gpio_owner s) ∧
    (alloc_ok w SiteData = true -> is_Some (supply_name c) -> alloc_ok w SiteName = true ->
     is_Some (input_supply c) -> alloc_ok w SiteInputSupply = false ->
     r = - ENOMEM ∧ evs = [EvKstrdup (name_addr s); EvKfree (Some (name_addr s))] ∧
     kstrings s' = kstrings s ∧ gpio_owner s' = gpio_owner s) ∧
    (allocs_ok w c -> gpio_is_valid w (gpio c) = false ->
     r = - EINVAL ∧
     evs = alloc_events c s ++ [EvKfree (supply_ptr c s); EvKfree (Some (name_addr s))] ∧
     kstrings s' = kstrings s ∧ gpio_owner s' = gpio_owner s) ∧
    (∀ ret, pin_request w c s ret -> ret ≠ 0 ->
     r = ret ∧ name_addr s ∈ freed evs ∧ gpio_owner s' = gpio_owner s ∧
     (input_supply c = None -> kstrings s' = kstrings s)) ∧
    (∀ e, pin_request w c s 0 -> regulator_register_status w = Some e ->
     r = Z.neg e ∧
     evs = alloc_events c s ++ [EvGpioRequest (gpio c) (request_flags c);
                                EvKfree (supply_ptr c s); EvKfree (Some (name_addr s))] ∧
     kstrings s' = kstrings s ∧ gpio_owner s' !! gpio c = Some (Some (name_addr s))).
Proof.
  intros Hc.
  destruct (probe_run w _ _ _ _ Hc) as (r & s' & Hrun & Hpath).
  exists r, s'.
  destruct Hpath;
    repeat match goal with
           | H : same_but_configs _ _ |- _ => destruct H as (? & ? & ? & ? & ? & ? & ?)
           | H : live _ _ _ _ |- _ => destruct H as (? & ? & ? & ? & ? & ? & ?)
           | H : ktrace _ = ktrace _ |- _ => rewrite <- (app_nil_r (ktrace s)) in H
           end;
    (eexists; split; [done|]; split; [eassumption|]).
  all: split;
    [intros a Ha; try apply elem_of_app in Ha as [Ha|Ha];
     try (apply alloc_events_kstrdup in Ha as [? Ha]; discriminate Ha); list_absurd Ha|].
  all: split;
    [rewrite ?freed_alloc_events; unfold supply_ptr; destruct (input_supply c); simpl;
     repeat constructor; try (intros Ha; list_absurd Ha);
     intros Ha; (apply elem_of_cons in Ha as [Ha|Ha]; [|by apply elem_of_nil in Ha]);
     revert Ha; apply supply_addr_ne; unfold pin_request, allocs_ok in *; tauto |].
  all: repeat (repeat split; intros); try path_absurd; try done; try congruence.
  - by eapply pin_request_fun.
  - rewrite freed_alloc_events. apply elem_of_cons. by left.
  - match goal with
    | H : kstrings s' = _, H' : input_supply c = None |- _ =>
      rewrite H; unfold strings_supply_only; by rewrite H'
    end.
  - match goal with H : gpio_owner s' = _ |- _ => rewrite H end. apply lookup_insert_eq.
Qed.

(** C4.  When probe acquires the pin, it requests it with flags whose
    initial level is high when the rail is on at boot and active high,
    low when on at boot and active low, low when off at boot and active
    high, high when off at boot and active low; that is the level the
    pin is driven to when probe returns. *)
Theorem probe_initial_level w pdev s c s0 :
  mv_vbus_reg_probe_config w pdev s = Some (PTR (Some c), s0) ->
  pin_request w c s 0 ->
  ∃ r s' flags evs,
    mv_vbus_reg_probe w pdev s = Some (r, s') ∧
    ktrace s' = ktrace s ++ evs ∧
    EvGpioRequest (gpio c) flags ∈ evs ∧
    gpio_level s' !! gpio c = Some (gpiof_init_level flags) ∧
    (enabled_at_boot c = true -> enable_high c = true -> gpiof_init_level flags = true) ∧
    (enabled_at_boot c = true -> enable_high c = false -> gpiof_init_level flags = false) ∧
    (enabled_at_boot c = false -> enable_high c = true -> gpiof_init_level flags = false) ∧
    (enabled_at_boot c = false -> enable_high c = false -> gpiof_init_level flags = true).
Proof.
  intros Hc Hpin.
  destruct (probe_run w _ _ _ _ Hc) as (r & s' & Hrun & Hpath).
  exists r, s', (request_flags c).
  assert (Hlvl : gpiof_init_level (request_flags c) = initial_level c)
    by (unfold request_flags; by destruct (initial_level c)).
  destruct Hpath; try path_absurd;
    try match goal with H : live _ _ _ _ |- _ => destruct H as (? & ? & ? & ? & ? & ? & ?) end;
    (eexists; split; [done|]; split; [eassumption|]);
    (split; [apply elem_of_app; right; apply elem_of_cons; by left|]);
    (split; [match goal with H : gpio_level s' = _ |- _ => rewrite H end;
             rewrite Hlvl; apply lookup_insert_eq|]);
    rewrite Hlvl; unfold initial_level; repeat split; intros -> ->; reflexivity.
Qed.

(** C2 (as amended).  Remove on a probed instance returns 0 and does, in
    this order: unregister the regulator, free the input-supply string,
    free the name string.  It does not release the pin: the pin
    ownership table is unchanged and the pin is still owned. *)
Theorem remove_unregisters_then_frees w pdev s c s0 s1 :
  mv_vbus_reg_probe_config w pdev s = Some (PTR (Some c), s0) ->
  mv_vbus_reg_probe w pdev s = Some (0, s1) ->
  ∃ rdev s2,
    pdev_rdev pdev s1 = Some rdev ∧
    mv_vbus_reg_remove pdev s1 = Some (0, s2) ∧
    ktrace s2 = ktrace s1 ++ [EvUnregister rdev; EvKfree (supply_ptr c s);
                              EvKfree (Some (name_addr s))] ∧
    kregs s2 !! rdev = None ∧ kregs s2 = kregs s ∧ kstrings s2 = kstrings s ∧
    gpio_owner s2 = gpio_owner s1 ∧
    gpio_owner s2 !! gpio c = Some (Some (name_addr s)).
Proof.
  intros Hc Hp.
  destruct (probe_success_live w _ _ _ _ _ Hc Hp) as (Hpin & Hreg & Hlive).
  destruct (live_core _ _ _ _ Hlive) as [Hrdev _].
  assert (Hn : is_Some (supply_name c)) by (unfold pin_request, allocs_ok in Hpin; tauto).
  destruct (remove_live _ _ _ _ Hn Hlive) as (s2 & Hrun & Ht & Hr & Hk & Ho & _).
  exists (fresh (dom (kregs s))), s2. repeat split; try done.
  - rewrite Hr. apply fresh_lookup.
  - rewrite Ho. destruct Hlive as (_ & _ & -> & _). apply lookup_insert_eq.
Qed.

(** C5.  The instance probe registers stores the negation of
    enable_high as its inversion flag.  In any state where that instance
    is registered, enable drives the pin to [true XOR inverted] and
    disable to [false XOR inverted]: the level of enable is enable_high
    itself and the level of disable its negation, so both flip with the
    polarity. *)
Theorem enable_disable_polarity w pdev s c s0 s1 :
  mv_vbus_reg_probe_config w pdev s = Some (PTR (Some c), s0) ->
  mv_vbus_reg_probe w pdev s = Some (0, s1) ->
  ∃ rdev d,
    pdev_rdev pdev s1 = Some rdev ∧ core_of s1 rdev = Some d ∧
    d_gpio d = gpio c ∧ ena_gpio_invert d = negb (enable_high c) ∧
    ∀ s2, core_of s2 rdev = Some d ->
      (∃ s3, enable vbus_ops rdev s2 = Some (0, s3) ∧
             ktrace s3 = ktrace s2 ++ [EvGpioSet (gpio c) (xorb true (ena_gpio_invert d))] ∧
             gpio_level s3 !! gpio c = Some (xorb true (ena_gpio_invert d))) ∧
      (∃ s3, disable vbus_ops rdev s2 = Some (0, s3) ∧
             ktrace s3 = ktrace s2 ++ [EvGpioSet (gpio c) (xorb false (ena_gpio_invert d))] ∧
             gpio_level s3 !! gpio c = Some (xorb false (ena_gpio_invert d))) ∧
      xorb true (ena_gpio_invert d) = enable_high c ∧
      xorb false (ena_gpio_invert d) = negb (enable_high c).
Proof.
  intros Hc Hp.
  destruct (probe_success_live w _ _ _ _ _ Hc Hp) as (_ & _ & Hlive).
  destruct (live_core _ _ _ _ Hlive) as [Hrdev Hcore].
  eexists _, _. split; [exact Hrdev|]. split; [exact Hcore|].
  split; [done|]. split; [done|].
  intros s2 Hcore2. simpl.
  unfold mv_vbus_enable_supply, mv_vbus_disable_supply.
  rewrite !(gpio_set_core _ _ _ _ Hcore2). simpl.
  repeat split; try (eexists; split; [reflexivity|]; simpl; split; [done|]; apply lookup_insert_eq).
  all: by destruct (enable_high c).
Qed.

(** C6.  On a node with regulator init data (and memory for the
    structure), extraction fails with -EINVAL exactly when min_uV
    differs from max_uV.  When both equal V > 0, the structure returned
    has microvolts V, and get_voltage on the instance probe builds from
    it returns V and changes nothing. *)
Theorem of_config_fixed_voltage w np i s :
  alloc_ok w SiteConfig = true ->
  np_init_data np = Some i ->
  ∃ r s',
    of_get_mv_vbus_config w np s = Some (r, s') ∧
    (r = ERR_PTR (- EINVAL) ↔ min_uV (constraints i) ≠ max_uV (constraints i)) ∧
    ∀ V c,
      min_uV (constraints i) = V -> max_uV (constraints i) = V -> 0 < V ->
      r = PTR (Some c) ->
      microvolts c = V ∧
      ∀ pdev s1,
        of_node pdev = Some np ->
        mv_vbus_reg_probe w pdev s = Some (0, s1) ->
        ∃ rdev, pdev_rdev pdev s1 = Some rdev ∧
                get_voltage vbus_ops rdev s1 = Some (V, s1).
Proof.
  intros Ha Hi.
  destruct (of_get_result w np s) as (r & s' & Hrun & Hres).
  exists r, s'. split; [done|]. split.
  - destruct r as [[c|]|e]; [| done |].
    + destruct Hres as (_ & i' & Hi' & Hmm & _).
      assert (i' = i) as -> by congruence. split; [done | congruence].
    + destruct Hres as [[-> ?] | [(-> & _ & Hmm) | (-> & _ & (i' & Hi' & Hmm) & _)]].
      * congruence.
      * rewrite Hi in Hmm. done.
      * assert (i' = i) as -> by congruence. split; [done | congruence].
  - intros V c Hmin Hmax HV ->.
    destruct Hres as (_ & i' & Hi' & _ & _ & _ & _ & _ & Hmv & _).
    assert (i' = i) as -> by congruence.
    split; [congruence|].
    intros pdev s1 Hnode Hp.
    assert (Hc : mv_vbus_reg_probe_config w pdev s = Some (PTR (Some c), s'))
      by (unfold mv_vbus_reg_probe_config; by rewrite Hnode).
    destruct (probe_success_live w _ _ _ _ _ Hc Hp) as (_ & _ & Hlive).
    destruct (live_core _ _ _ _ Hlive) as [Hrdev Hcore].
    eexists. split; [exact Hrdev|]. simpl.
    rewrite (get_voltage_core _ _ _ Hcore). simpl.
    rewrite Hmv, Hmin. destruct (V =? 0) eqn:E; [apply Z.eqb_eq in E; lia | done].
Qed.

(** C7.  When the GPIO lookup is reached and answers -ENODEV or
    -EPROBE_DEFER, extraction fails with -EPROBE_DEFER and so does
    probe.  No string, pin, registration, driver data or trace entry is
    left: only the device-managed configuration block was allocated.
    -EPROBE_DEFER differs from -ENOMEM and -EINVAL, the only other
    errors extraction returns. *)
Theorem probe_defers_on_unresolved_pin w pdev np i s :
  of_node pdev = Some np ->
  alloc_ok w SiteConfig = true ->
  np_init_data np = Some i ->
  min_uV (constraints i) = max_uV (constraints i) ->
  np_gpio np = - ENODEV ∨ np_gpio np = - EPROBE_DEFER ->
  ∃ s',
    of_get_mv_vbus_config w np s = Some (ERR_PTR (- EPROBE_DEFER), s') ∧
    mv_vbus_reg_probe w pdev s = Some (- EPROBE_DEFER, s') ∧
    same_but_configs s s' ∧
    - EPROBE_DEFER ≠ - ENOMEM ∧ - EPROBE_DEFER ≠ - EINVAL ∧
    ∀ np' s1 e s1',
      of_get_mv_vbus_config w np' s1 = Some (ERR_PTR e, s1') ->
      e = - ENOMEM ∨ e = - EINVAL ∨ e = - EPROBE_DEFER.
Proof.
  intros Hnode Ha Hi Hmm Hgpio.
  destruct (of_get_result w np s) as (r & s' & Hrun & Hres).
  assert (r = ERR_PTR (- EPROBE_DEFER)) as ->.
  { destruct r as [[c|]|e]; [| done |].
    - destruct Hres as (_ & i' & _ & _ & H1 & H2 & _). by destruct Hgpio.
    - destruct Hres as [[-> ?] | [(-> & _ & Hne) | (-> & _)]]; [congruence | | done].
      rewrite Hi in Hne. done. }
  exists s'. split; [done|]. split.
  { apply probe_stops. unfold mv_vbus_reg_probe_config. by rewrite Hnode. }
  split.
  { destruct (of_get_frame w np s) as (r' & s0' & Hrun' & Hsame). congruence. }
  split; [done|]. split; [done|].
  intros np' s1 e s1' Hrun'.
  destruct (of_get_result w np' s1) as (r' & s1'' & Hrun'' & Hres').
  rewrite Hrun' in Hrun''. injection Hrun'' as <- <-.
  destruct Hres' as [[-> _] | [[-> _] | [-> _]]]; auto.
Qed.

(** C8 (as amended).  Probe fails, leaving no registration and no
    driver-data slot, on every configuration whose pin is invalid and
    on every device-tree node whose min_uV differs from max_uV.  The
    voltage itself is not checked: whatever microvolts is, zero and
    negative included, a configuration that gets its pin and is accepted
    by the framework goes live with that voltage, and with n_voltages 0
    when it is zero. *)
Theorem probe_rejects_bad_pin_and_range w pdev s :
  (∀ r s',
     mv_vbus_reg_probe w pdev s = Some (r, s') ->
     (∃ c s0, mv_vbus_reg_probe_config w pdev s = Some (PTR (Some c), s0) ∧
              gpio_is_valid w (gpio c) = false) ∨
     (∃ np i, of_node pdev = Some np ∧ np_init_data np = Some i ∧
              min_uV (constraints i) ≠ max_uV (constraints i)) ->
     r ≠ 0 ∧ kregs s' = kregs s ∧ pdev_drvdata s' = pdev_drvdata s) ∧
  (∀ c s0,
     mv_vbus_reg_probe_config w pdev s = Some (PTR (Some c), s0) ->
     pin_request w c s 0 ->
     regulator_register_status w = None ->
     ∃ s' rdev d,
       mv_vbus_reg_probe w pdev s = Some (0, s') ∧
       pdev_rdev pdev s' = Some rdev ∧ core_of s' rdev = Some d ∧
       d_microvolts d = microvolts c ∧
       desc_n_voltages (desc d) = if microvolts c =? 0 then 0 else 1).
Proof.
  split.
  - intros r s' Hp [(c & s0 & Hc & Hv) | (np & i & Hnode & Hi & Hmm)].
    + destruct (probe_run w _ _ _ _ Hc) as (r' & s'' & Hrun & Hpath).
      rewrite Hp in Hrun. injection Hrun as <- <-.
      destruct Hpath; try path_absurd;
        try match goal with
            | H : same_but_configs _ _ |- _ => destruct H as (? & ? & ? & ? & ? & ? & ?)
            end; done.
    + destruct (of_get_result w np s) as (r' & s0 & Hrun & Hres).
      assert (Hc : mv_vbus_reg_probe_config w pdev s = Some (r', s0))
        by (unfold mv_vbus_reg_probe_config; by rewrite Hnode).
      destruct r' as [[c|]|e]; [| done |].
      * destruct Hres as (_ & i' & Hi' & Hmm' & _). congruence.
      * rewrite (probe_stops _ _ _ _ _ Hc) in Hp. injection Hp as <- <-.
        destruct (probe_config_same _ _ _ _ _ Hc) as (_ & _ & _ & _ & ? & ? & _).
        destruct Hres as [[-> _] | [[-> _] | [-> _]]]; done.
  - intros c s0 Hc Hpin Hreg.
    destruct (probe_run w _ _ _ _ Hc) as (r & s' & Hrun & Hpath).
    destruct Hpath; try path_absurd.
    match goal with H : live _ _ _ _ |- _ => destruct (live_core _ _ _ _ H) as [Hrdev Hcore] end.
    eexists _, _, _. split; [done|]. split; [exact Hrdev|]. split; [exact Hcore|]. done.
Qed.

(** C9.  The instance probe registers holds the configured voltage.  In
    any state where it is registered, list_voltage returns that voltage
    for selector 0 and -EINVAL for every other selector, and leaves the
    state as it is. *)
Theorem list_voltage_selector w pdev s c s0 s1 :
  mv_vbus_reg_probe_config w pdev s = Some (PTR (Some c), s0) ->
  mv_vbus_reg_probe w pdev s = Some (0, s1) ->
  ∃ rdev d,
    pdev_rdev pdev s1 = Some rdev ∧ core_of s1 rdev = Some d ∧
    d_microvolts d = microvolts c ∧
    ∀ s2, core_of s2 rdev = Some d ->
      list_voltage vbus_ops rdev 0 s2 = Some (microvolts c, s2) ∧
      ∀ n, n ≠ 0 -> list_voltage vbus_ops rdev n s2 = Some (- EINVAL, s2).
Proof.
  intros Hc Hp.
  destruct (probe_success_live w _ _ _ _ _ Hc Hp) as (_ & _ & Hlive).
  destruct (live_core _ _ _ _ Hlive) as [Hrdev Hcore].
  eexists _, _. split; [exact Hrdev|]. split; [exact Hcore|]. split; [done|].
  intros s2 Hcore2. simpl. split.
  - by rewrite (list_voltage_core _ _ _ _ Hcore2).
  - intros n Hn. rewrite (list_voltage_core _ _ _ _ Hcore2).
    destruct (n =? 0) eqn:E; [apply Z.eqb_eq in E; done | done].
Qed.

(** C10.  On an instance whose stored voltage is 0, list_voltage(0)
    returns 0 as a result while get_voltage fails with -EINVAL; neither
    changes the state. *)
Theorem zero_voltage_listed_but_not_got s rdev d :
  core_of s rdev = Some d ->
  d_microvolts d = 0 ->
  list_voltage vbus_ops rdev 0 s = Some (0, s) ∧
  get_voltage vbus_ops rdev s = Some (- EINVAL, s).
Proof.
  intros Hcore Hz. simpl.
  rewrite (list_voltage_core _ _ _ _ Hcore), (get_voltage_core _ _ _ Hcore), Hz. done.
Qed.

(** ** The claims on the sample devices *)

Ltac holds := vm_compute; repeat split; eauto.

(** C1, as stated, fails: the framework refuses the registration of the
    5 V rail; probe returns the error with pin 42, free before, still
    owned, and never released. *)
Lemma probe_failed_registration_leaves_pin_owned :
  ∃ s', mv_vbus_reg_probe world_register_refused vbus_pdev kstate_empty
        = Some (- EBUSY, s') ∧
        ktrace s' = [EvKstrdup 0%nat; EvGpioRequest 42 0;
                     EvKfree None; EvKfree (Some 0%nat)] ∧
        gpio_owner kstate_empty !! 42 = None ∧
        gpio_owner s' !! 42 = Some (Some 0%nat).
Proof.
  eexists. split; [vm_compute; reflexivity|].
  split; [reflexivity|]. split; reflexivity.
Qed.

Lemma probe_failed_registration_keeps_pin_witness :
  pin_request world_register_refused board_config kstate_empty 0 ∧
  ∃ s', mv_vbus_reg_probe world_register_refused board_pdev kstate_empty
        = Some (- EBUSY, s') ∧
        kstrings s' = ∅ ∧
        gpio_owner s' !! 42 = Some (Some 0%nat).
Proof.
  assert (Hpin : pin_request world_register_refused board_config kstate_empty 0) by holds.
  split; [exact Hpin|].
  destruct (probe_failed_registration_keeps_pin world_register_refused board_pdev
              kstate_empty board_config kstate_empty 16%positive
              eq_refl Hpin eq_refl)
    as (s' & Hrun & Hk & _ & _ & _ & _ & Ho).
  exists s'. repeat split; assumption.
Defined.

(** C2, as stated, fails: after probe and remove of the 5 V rail, pin 42
    is still owned; the trace of both has no release of it. *)
Lemma remove_leaves_pin_owned :
  ∃ s2, mv_vbus_reg_probe world_ok vbus_pdev kstate_empty = Some (0, vbus_live) ∧
        mv_vbus_reg_remove vbus_pdev vbus_live = Some (0, s2) ∧
        ktrace s2 = [EvKstrdup 0%nat; EvGpioRequest 42 0; EvRegister 0%nat;
                     EvUnregister 0%nat; EvKfree None; EvKfree (Some 0%nat)] ∧
        gpio_owner s2 !! 42 = Some (Some 0%nat).
Proof.
  eexists. split; [vm_compute; reflexivity|].
  split; [vm_compute; reflexivity|]. split; reflexivity.
Qed.

Lemma remove_unregisters_then_frees_witness :
  mv_vbus_reg_probe world_ok board_pdev kstate_empty = Some (0, board_live) ∧
  ∃ s2, mv_vbus_reg_remove board_pdev board_live = Some (0, s2) ∧
        ktrace s2 = ktrace board_live ++
                    [EvUnregister 0%nat; EvKfree (Some 1%nat); EvKfree (Some 0%nat)] ∧
        gpio_owner s2 !! 42 = Some (Some 0%nat).
Proof.
  assert (Hp : mv_vbus_reg_probe world_ok board_pdev kstate_empty = Some (0, board_live))
    by (vm_compute; reflexivity).
  split; [exact Hp|].
  destruct (remove_unregisters_then_frees world_ok board_pdev kstate_empty board_config
              kstate_empty board_live eq_refl Hp)
    as (rdev & s2 & Hrdev & Hrun & Ht & _ & _ & _ & _ & Ho).
  exists s2. split; [exact Hrun|].
  assert (rdev = 0%nat) as -> by (vm_compute in Hrdev; congruence).
  split; [exact Ht | exact Ho].
Defined.

(** C3, as stated, fails: with an input supply configured and the
    registration refused, both strings are freed but the pin acquired
    by the preceding step is not released. *)
Lemma probe_failure_leaves_pin_acquired :
  ∃ s', mv_vbus_reg_probe world_register_refused board_pdev kstate_empty
        = Some (- EBUSY, s') ∧
        ktrace s' = [EvKstrdup 0%nat; EvKstrdup 1%nat; EvGpioRequest 42 0;
                     EvKfree (Some 1%nat); EvKfree (Some 0%nat)] ∧
        kstrings s' = ∅ ∧
        gpio_owner kstate_empty !! 42 = None ∧
        gpio_owner s' !! 42 = Some (Some 0%nat).
Proof.
  eexists. split; [vm_compute; reflexivity|].
  split; [reflexivity|]. split; [reflexivity|]. split; reflexivity.
Qed.

Lemma probe_failure_unwinding_witness :
  mv_vbus_reg_probe_config world_supply_alloc_fails board_pdev kstate_empty
  = Some (PTR (Some board_config), kstate_empty) ∧
  ∃ s', mv_vbus_reg_probe world_supply_alloc_fails board_pdev kstate_empty
        = Some (- ENOMEM, s') ∧
        ktrace s' = [EvKstrdup 0%nat; EvKfree (Some 0%nat)] ∧
        kstrings s' = ∅.
Proof.
  split; [reflexivity|].
  destruct (probe_failure_unwinding world_supply_alloc_fails board_pdev kstate_empty
              board_config kstate_empty eq_refl)
    as (r & s' & evs & Hrun & Ht & _ & _ & _ & _ & _ & Hsup & _).
  destruct Hsup as (-> & -> & Hk & _);
    [reflexivity | vm_compute; eauto | reflexivity | vm_compute; eauto | reflexivity |].
  exists s'. repeat split; assumption.
Defined.

(** What the pin-request path leaves when an input supply is configured:
    the chip refuses pin 42, the name is freed, the copy of the
    input-supply name is still allocated. *)
Lemma probe_pin_refused_leaves_input_supply :
  ∃ s', mv_vbus_reg_probe world_pin_refused board_pdev kstate_empty
        = Some (- EBUSY, s') ∧
        ktrace s' = [EvKstrdup 0%nat; EvKstrdup 1%nat; EvGpioRequest 42 0;
                     EvKfree (Some 0%nat)] ∧
        kstrings s' = {[ 1%nat := "vin"%string ]} ∧
        gpio_owner s' !! 42 = None.
Proof.
  eexists. split; [vm_compute; reflexivity|].
  split; [reflexivity|]. split; [reflexivity|]. reflexivity.
Qed.

Lemma probe_initial_level_witness :
  pin_request world_ok board_config kstate_empty 0 ∧
  ∃ r s', mv_vbus_reg_probe world_ok board_pdev kstate_empty = Some (r, s') ∧
          gpio_level s' !! 42 = Some false.
Proof.
  assert (Hpin : pin_request world_ok board_config kstate_empty 0) by holds.
  split; [exact Hpin|].
  destruct (probe_initial_level world_ok board_pdev kstate_empty board_config
              kstate_empty eq_refl Hpin)
    as (r & s' & flags & evs & Hrun & _ & _ & Hl & _ & _ & Hlow & _).
  exists r, s'. split; [exact Hrun|].
  rewrite <- (Hlow eq_refl eq_refl). exact Hl.
Defined.

Lemma enable_disable_polarity_witness :
  mv_vbus_reg_probe world_ok board_pdev kstate_empty = Some (0, board_live) ∧
  ∃ s3, enable vbus_ops 0%nat board_live = Some (0, s3) ∧
        gpio_level s3 !! 42 = Some true.
Proof.
  assert (Hp : mv_vbus_reg_probe world_ok board_pdev kstate_empty = Some (0, board_live))
    by (vm_compute; reflexivity).
  split; [exact Hp|].
  destruct (enable_disable_polarity world_ok board_pdev kstate_empty board_config
              kstate_empty board_live eq_refl Hp)
    as (rdev & d & Hrdev & Hcore & _ & _ & Hops).
  assert (rdev = 0%nat) as -> by (vm_compute in Hrdev; congruence).
  destruct (Hops board_live Hcore) as ((s3 & Hen & _ & Hl) & _ & Hon & _).
  exists s3. split; [exact Hen|]. rewrite Hon in Hl. exact Hl.
Defined.

Lemma of_config_fixed_voltage_witness :
  alloc_ok world_ok SiteConfig = true ∧
  np_init_data vbus_node = Some (vbus_init_data 5000000 5000000) ∧
  ∃ r s', of_get_mv_vbus_config world_ok vbus_node kstate_empty = Some (r, s') ∧
          r ≠ ERR_PTR (- EINVAL) ∧
          get_voltage vbus_ops 0%nat vbus_live = Some (5000000, vbus_live).
Proof.
  split; [reflexivity|]. split; [reflexivity|].
  destruct (of_config_fixed_voltage world_ok vbus_node (vbus_init_data 5000000 5000000)
              kstate_empty eq_refl eq_refl)
    as (r & s' & Hrun & Hiff & Hv).
  exists r, s'. split; [exact Hrun|]. split.
  - intros E. apply Hiff in E. apply E. reflexivity.
  - assert (Hr : r = PTR (Some (set_init_data
                  (Some (set_apply_uV false (vbus_init_data 5000000 5000000)))
                  (set_enable_high true (set_gpio 42 (set_microvolts 5000000
                    (set_supply_name (Some "vbus"%string) zero_config)))))))
      by (vm_compute in Hrun; vm_compute; congruence).
    destruct (Hv 5000000 _ eq_refl eq_refl ltac:(lia) Hr) as [_ Hget].
    destruct (Hget vbus_pdev vbus_live eq_refl ltac:(vm_compute; reflexivity))
      as (rdev & Hrdev & Hg).
    assert (rdev = 0%nat) as -> by (vm_compute in Hrdev; congruence).
    exact Hg.
Defined.

Lemma probe_defers_on_unresolved_pin_witness :
  np_gpio deferred_node = - EPROBE_DEFER ∧
  ∃ s', mv_vbus_reg_probe world_ok deferred_pdev kstate_empty
        = Some (- EPROBE_DEFER, s') ∧
        gpio_owner s' = ∅ ∧ kstrings s' = ∅ ∧ kregs s' = ∅.
Proof.
  split; [reflexivity|].
  destruct (probe_defers_on_unresolved_pin world_ok deferred_pdev deferred_node
              (vbus_init_data 5000000 5000000) kstate_empty
              eq_refl eq_refl eq_refl eq_refl (or_intror eq_refl))
    as (s' & _ & Hrun & (Hk & _ & Ho & _ & Hr & _) & _).
  exists s'. repeat split; assumption.
Defined.

(** C8, as stated, fails: the node without a voltage has min = max = 0;
    probe accepts it and the instance goes live with voltage 0. *)
Lemma zero_voltage_core_goes_live :
  mv_vbus_reg_probe world_ok unset_pdev kstate_empty = Some (0, unset_live) ∧
  pdev_rdev unset_pdev unset_live = Some 0%nat ∧
  ∃ d, core_of unset_live 0%nat = Some d ∧ d_microvolts d = 0.
Proof.
  split; [vm_compute; reflexivity|]. split; [vm_compute; reflexivity|].
  eexists. split; [vm_compute; reflexivity|]. reflexivity.
Qed.

Lemma probe_rejects_bad_pin_and_range_witness :
  gpio_is_valid world_ok (gpio badpin_config) = false ∧
  ∃ r s', mv_vbus_reg_probe world_ok badpin_pdev kstate_empty = Some (r, s') ∧
          r ≠ 0 ∧ kregs s' = ∅.
Proof.
  split; [reflexivity|].
  eexists _, _. split; [vm_compute; reflexivity|].
  destruct (probe_rejects_bad_pin_and_range world_ok badpin_pdev kstate_empty) as [Hrej _].
  destruct (Hrej _ _ ltac:(vm_compute; reflexivity)
              (or_introl (ex_intro _ badpin_config
                            (ex_intro _ kstate_empty (conj eq_refl eq_refl)))))
    as (Hr & Hk & _).
  split; [exact Hr | exact Hk].
Defined.

Lemma list_voltage_selector_witness :
  mv_vbus_reg_probe world_ok board_pdev kstate_empty = Some (0, board_live) ∧
  list_voltage vbus_ops 0%nat 0 board_live = Some (5000000, board_live) ∧
  list_voltage vbus_ops 0%nat 1 board_live = Some (- EINVAL, board_live).
Proof.
  assert (Hp : mv_vbus_reg_probe world_ok board_pdev kstate_empty = Some (0, board_live))
    by (vm_compute; reflexivity).
  split; [exact Hp|].
  destruct (list_voltage_selector world_ok board_pdev kstate_empty board_config
              kstate_empty board_live eq_refl Hp)
    as (rdev & d & Hrdev & Hcore & _ & Hops).
  assert (rdev = 0%nat) as -> by (vm_compute in Hrdev; congruence).
  destruct (Hops board_live Hcore) as [H0 Hn].
  split; [exact H0 | apply Hn; lia].
Defined.

Lemma zero_voltage_listed_but_not_got_witness :
  ∃ d, core_of unset_live 0%nat = Some d ∧ d_microvolts d = 0 ∧
       list_voltage vbus_ops 0%nat 0 unset_live = Some (0, unset_live) ∧
       get_voltage vbus_ops 0%nat unset_live = Some (- EINVAL, unset_live).
Proof.
  eexists. split; [vm_compute; reflexivity|]. split; [reflexivity|].
  apply (zero_voltage_listed_but_not_got unset_live 0%nat _
           ltac:(vm_compute; reflexivity) eq_refl).
Defined.

(** * Further properties *)

(** ** Shared lemmas *)

Lemma request_core s rdev d (req : bool) :
  core_of s rdev = Some d ->
  (if req then enable vbus_ops rdev else disable vbus_ops rdev) s
  = Some (0, log (EvGpioSet (d_gpio d) (xorb req (ena_gpio_invert d)))
               (upd_gpio_level (insert (d_gpio d) (xorb req (ena_gpio_invert d))) s)).
Proof.
  intros Hcore. destruct req; simpl;
    unfold mv_vbus_enable_supply, mv_vbus_disable_supply; by apply gpio_set_core.
Qed.

Lemma requests_run rdev d reqs : ∀ s,
  core_of s rdev = Some d ->
  ∃ s', mv_vbus_requests rdev reqs s = Some (0, s') ∧
        ktrace s' = ktrace s ++ request_events d reqs ∧
        kstrings s' = kstrings s ∧ kdata s' = kdata s ∧ kregs s' = kregs s ∧
        pdev_drvdata s' = pdev_drvdata s ∧ gpio_owner s' = gpio_owner s ∧
        (∀ pin, pin ≠ d_gpio d -> gpio_level s' !! pin = gpio_level s !! pin) ∧
        (∀ req, last reqs = Some req ->
                gpio_level s' !! d_gpio d = Some (xorb req (ena_gpio_invert d))).
Proof.
  induction reqs as [|req reqs IH]; intros s Hcore.
  - exists s. simpl. rewrite app_nil_r. repeat split; try done.
  - simpl. unfold mbind, M_bind. rewrite (request_core _ _ _ _ Hcore). simpl.
    set (s1 := log _ _).
    destruct (IH s1) as (s' & Hrun & Ht & Hk & Hd & Hr & Hp & Ho & Hl & Hlast); [done|].
    exists s'. split; [done|]. rewrite Ht, Hk, Hd, Hr, Hp, Ho. simpl.
    rewrite <- app_assoc. repeat split; try done.
    + intros pin Hne. rewrite Hl by done. simpl. by apply lookup_insert_ne.
    + intros req' Hreq'. destruct reqs as [|req2 reqs].
      * simpl in Hreq'. injection Hreq' as <-.
        simpl in Hrun. injection Hrun as <-. simpl. apply lookup_insert_eq.
      * apply Hlast. exact Hreq'.
Qed.

Lemma of_get_outcome w np s r s' :
  of_get_mv_vbus_config w np s = Some (r, s') ->
  match r with
  | ERR_PTR e => of_config_err w np e
  | PTR None => False
  | PTR (Some c) => of_config_ok w np c
  end.
Proof.
  intros Hrun. destruct (of_get_result w np s) as (r' & s'' & Hrun' & Hres).
  rewrite Hrun in Hrun'. by injection Hrun' as <- <-.
Qed.

Lemma of_config_err_nonzero w np e : of_config_err w np e -> e ≠ 0.
Proof.
  by intros [[-> _] | [[-> _] | [-> _]]].
Qed.

Lemma probe_config_err w pdev s e s0 :
  mv_vbus_reg_probe_config w pdev s = Some (ERR_PTR e, s0) ->
  ∃ np, of_node pdev = Some np ∧ of_config_err w np e.
Proof.
  unfold mv_vbus_reg_probe_config. destruct (of_node pdev) as [np|]; [|done].
  intros Hrun. exists np. split; [done|]. by apply (of_get_outcome _ _ _ _ _ Hrun).
Qed.

Lemma probe_success_config w pdev s s1 :
  mv_vbus_reg_probe w pdev s = Some (0, s1) ->
  ∃ c s0, mv_vbus_reg_probe_config w pdev s = Some (PTR (Some c), s0).
Proof.
  intros Hp. destruct (probe_config_frame w pdev s) as ([[c|]|e] & s0 & Hc & _).
  - eauto.
  - unfold mv_vbus_reg_probe in Hp. unfold_m. by rewrite Hc in Hp.
  - rewrite (probe_stops _ _ _ _ _ Hc) in Hp. injection Hp as -> _.
    destruct (probe_config_err _ _ _ _ _ Hc) as (np & _ & He).
    by apply of_config_err_nonzero in He.
Qed.

Lemma device_tree_config w pdev np s c s0 :
  of_node pdev = Some np ->
  mv_vbus_reg_probe_config w pdev s = Some (PTR (Some c), s0) ->
  of_config_ok w np c.
Proof.
  unfold mv_vbus_reg_probe_config. intros ->. apply of_get_outcome.
Qed.

Lemma lookup_insert_fresh {V} (m : gmap nat V) a v x :
  m !! a = Some x -> <[fresh (dom m) := v]> m !! a = Some x.
Proof.
  intros H. rewrite lookup_insert_ne; [done|].
  intros E. rewrite <- E, fresh_lookup in H. done.
Qed.

Lemma core_of_kept s s' rdev d :
  (∀ r rd, kregs s !! r = Some rd -> kregs s' !! r = Some rd) ->
  (∀ p x, kdata s !! p = Some x -> kdata s' !! p = Some x) ->
  core_of s rdev = Some d -> core_of s' rdev = Some d.
Proof.
  intros Hr Hd. unfold core_of.
  destruct (kregs s !! rdev) as [rd|] eqn:E; simpl; [|done].
  rewrite (Hr _ _ E). simpl.
  destruct (reg_data rd) as [p|]; simpl; [|done]. apply Hd.
Qed.

Lemma strings_after_name_keeps c s a str :
  kstrings s !! a = Some str -> strings_after_name c s !! a = Some str.
Proof.
  unfold strings_after_name, name_addr. destruct (supply_name c); [|done].
  apply lookup_insert_fresh.
Qed.

Lemma strings_supply_only_keeps c s a str :
  kstrings s !! a = Some str -> strings_supply_only c s !! a = Some str.
Proof.
  intros H. unfold strings_supply_only. destruct (input_supply c); [|done].
  rewrite lookup_insert_ne; [done|].
  intros E. apply (strings_after_name_keeps c) in H.
  unfold supply_addr in E. rewrite <- E, fresh_lookup in H. done.
Qed.

Lemma strings_after_supply_keeps c s a str :
  kstrings s !! a = Some str -> strings_after_supply c s !! a = Some str.
Proof.
  intros H. apply (strings_after_name_keeps c) in H.
  unfold strings_after_supply, supply_addr. destruct (input_supply c); [|done].
  by apply lookup_insert_fresh.
Qed.

Lemma remove_registered pdev c s s2 :
  is_Some (supply_name c) ->
  kdata s2 = <[data_addr s := live_data c s (fresh (dom (kregs s)))]> (kdata s) ->
  kstrings s2 = strings_after_supply c s ->
  kregs s2 = <[fresh (dom (kregs s)) :=
                 {| reg_data := Some (data_addr s);
                    rdev_constraints := init_data c |}]> (kregs s) ->
  pdev_drvdata s2 = <[pdev_id pdev := data_addr s]> (pdev_drvdata s) ->
  ∃ s3, mv_vbus_reg_remove pdev s2 = Some (0, s3) ∧
        ktrace s3 = ktrace s2 ++ [EvUnregister (fresh (dom (kregs s)));
                                  EvKfree (supply_ptr c s); EvKfree (Some (name_addr s))] ∧
        kregs s3 = kregs s ∧ kstrings s3 = kstrings s ∧
        gpio_owner s3 = gpio_owner s2 ∧ gpio_level s3 = gpio_level s2.
Proof.
  intros [n Hn] Hd Hk Hr Hp.
  unfold mv_vbus_reg_remove, platform_get_drvdata, data_deref, data_load,
    regulator_unregister, kfree. unfold_m.
  rewrite Hp, lookup_insert_eq. simpl.
  rewrite Hd, lookup_insert_eq. simpl.
  rewrite Hr, lookup_insert_eq. simpl.
  rewrite Hd, lookup_insert_eq. simpl.
  unfold supply_ptr, strings_after_supply, supply_addr, strings_after_name, name_addr in *.
  rewrite Hn in *.
  destruct (input_supply c) as [sup|] eqn:Hsup; simpl; rewrite ?Hk; ksimpl;
    rewrite ?Hd, ?Hk; ksimpl; rewrite ?Hd, ?Hk; ksimpl.
  all: unfold name_addr; ksimpl.
  all: eexists; (split; [reflexivity|]); simpl.
  all: rewrite <- ?app_assoc; simpl.
  all: rewrite Hr, ?Hk; rewrite ?delete_fresh_insert; done.
Qed.

(** ** The operations *)

(** X1.  On a registered instance, enable, disable and suspend-disable
    return 0 and write one level to the instance's pin, the request
    XOR the inversion flag, suspend-disable writing what disable
    writes.  They change nothing else: no ownership, string, block,
    registration or driver-data slot. *)
Theorem operations_touch_only_the_pin_level s rdev d (op : addr -> M Z) (req : bool) :
  core_of s rdev = Some d ->
  (op, req) ∈ [(enable vbus_ops, true); (disable vbus_ops, false);
               (set_suspend_disable vbus_ops, false)] ->
  ∃ s',
    op rdev s = Some (0, s') ∧
    ktrace s' = ktrace s ++ [EvGpioSet (d_gpio d) (xorb req (ena_gpio_invert d))] ∧
    gpio_level s' = <[d_gpio d := xorb req (ena_gpio_invert d)]> (gpio_level s) ∧
    gpio_owner s' = gpio_owner s ∧ kstrings s' = kstrings s ∧
    kconfigs s' = kconfigs s ∧ kdata s' = kdata s ∧ kregs s' = kregs s ∧
    pdev_drvdata s' = pdev_drvdata s.
Proof.
  intros Hcore Hop.
  assert (Hrun : op rdev s = mv_vbus_gpio_set rdev req s).
  { repeat (apply elem_of_cons in Hop as [[= -> ->]|Hop]; [reflexivity|]).
    by apply elem_of_nil in Hop. }
  rewrite Hrun, (gpio_set_core _ _ _ _ Hcore).
  eexists. split; [reflexivity|]. simpl. repeat split; done.
Qed.

Lemma operations_touch_only_the_pin_level_witness :
  ∃ d, core_of board_live 0%nat = Some d ∧
  ∃ s', set_suspend_disable vbus_ops 0%nat board_live = Some (0, s') ∧
        gpio_level s' = <[42 := false]> (gpio_level board_live) ∧
        gpio_owner s' = gpio_owner board_live.
Proof.
  eexists. split; [vm_compute; reflexivity|].
  destruct (operations_touch_only_the_pin_level board_live 0%nat _
              (set_suspend_disable vbus_ops) false
              ltac:(vm_compute; reflexivity)
              ltac:(do 2 apply list_elem_of_further; apply list_elem_of_here))
    as (s' & Hrun & _ & Hl & Ho & _).
  exists s'. split; [exact Hrun|]. split; [exact Hl | exact Ho].
Defined.

(** X2.  A sequence of enable and disable requests on a registered
    instance never fails, writes the pin once per request in order, and
    leaves it at the level of the last request; the levels of other
    pins are as before and the instance is still registered. *)
Theorem last_request_decides_the_level s rdev d reqs req :
  core_of s rdev = Some d ->
  last reqs = Some req ->
  ∃ s',
    mv_vbus_requests rdev reqs s = Some (0, s') ∧
    ktrace s' = ktrace s ++ request_events d reqs ∧
    gpio_level s' !! d_gpio d = Some (xorb req (ena_gpio_invert d)) ∧
    (∀ pin, pin ≠ d_gpio d -> gpio_level s' !! pin = gpio_level s !! pin) ∧
    core_of s' rdev = Some d.
Proof.
  intros Hcore Hlast.
  destruct (requests_run rdev d reqs s Hcore)
    as (s' & Hrun & Ht & Hk & Hd & Hr & Hp & Ho & Hl & Hreq).
  exists s'. repeat split; try done; [by apply Hreq|].
  unfold core_of in *. by rewrite Hr, Hd.
Qed.

Lemma last_request_decides_the_level_witness :
  ∃ s', mv_vbus_requests 0%nat [true; false; true] board_live = Some (0, s') ∧
        gpio_level s' !! 42 = Some true.
Proof.
  destruct (last_request_decides_the_level board_live 0%nat _ [true; false; true] true
              ltac:(vm_compute; reflexivity) eq_refl)
    as (s' & Hrun & _ & Hl & _).
  exists s'. split; [exact Hrun | exact Hl].
Defined.

(** X3.  Issuing the same request twice in a row leaves the pin levels
    as after the first; only a second write is traced. *)
Theorem request_twice_is_request_once s rdev d (req : bool) :
  core_of s rdev = Some d ->
  ∃ s1 s2,
    (if req then enable vbus_ops rdev else disable vbus_ops rdev) s = Some (0, s1) ∧
    (if req then enable vbus_ops rdev else disable vbus_ops rdev) s1 = Some (0, s2) ∧
    gpio_level s2 = gpio_level s1 ∧
    ktrace s2 = ktrace s1 ++ [EvGpioSet (d_gpio d) (xorb req (ena_gpio_invert d))].
Proof.
  intros Hcore. eexists _, _.
  split; [by apply request_core|].
  split; [by apply request_core|].
  simpl. by rewrite insert_insert_eq.
Qed.

Lemma request_twice_is_request_once_witness :
  ∃ s1 s2, disable vbus_ops 0%nat board_live = Some (0, s1) ∧
           disable vbus_ops 0%nat s1 = Some (0, s2) ∧
           gpio_level s2 = gpio_level s1.
Proof.
  destruct (request_twice_is_request_once board_live 0%nat _ false
              ltac:(vm_compute; reflexivity))
    as (s1 & s2 & H1 & H2 & Hl & _).
  exists s1, s2. split; [exact H1|]. split; [exact H2 | exact Hl].
Defined.

(** X4.  On a regulator whose driver data is NULL, the pin switch
    returns -EINVAL and writes nothing, and list_voltage returns -EINVAL
    for a selector other than 0; get_voltage and list_voltage(0) have no
    such check and dereference the NULL pointer. *)
Theorem null_driver_data_checked_by_gpio_set_only s rdev rd :
  kregs s !! rdev = Some rd ->
  reg_data rd = None ->
  (∀ req, mv_vbus_gpio_set rdev req s = Some (- EINVAL, s)) ∧
  get_voltage vbus_ops rdev s = None ∧
  list_voltage vbus_ops rdev 0 s = None ∧
  (∀ n, n ≠ 0 -> list_voltage vbus_ops rdev n s = Some (- EINVAL, s)).
Proof.
  intros Hr Hd. simpl.
  unfold mv_vbus_gpio_set, mv_vbus_get_voltage, mv_vbus_list_voltage, rdev_get_drvdata,
    data_deref. unfold_m.
  rewrite Hr, Hd. simpl. repeat split; try done.
  intros n Hn. apply Z.eqb_neq in Hn. by rewrite Hn.
Qed.

Lemma null_driver_data_checked_by_gpio_set_only_witness :
  mv_vbus_gpio_set 0%nat true orphan_state = Some (- EINVAL, orphan_state) ∧
  get_voltage vbus_ops 0%nat orphan_state = None.
Proof.
  destruct (null_driver_data_checked_by_gpio_set_only orphan_state 0%nat
              {| reg_data := None; rdev_constraints := None |}
              ltac:(vm_compute; reflexivity) eq_refl)
    as (Hset & Hget & _).
  split; [apply Hset | exact Hget].
Defined.



(** ** Configuration extraction *)

(** X6.  Whatever of_get_mv_vbus_config returns, it touches no pin,
    string, registration, driver data or trace.  Without memory it
    allocates nothing; otherwise it allocates exactly one
    device-managed block, which holds the structure it returns when it
    succeeds. *)
Theorem extraction_only_allocates_its_block w np s r s' :
  of_get_mv_vbus_config w np s = Some (r, s') ->
  same_but_configs s s' ∧
  (alloc_ok w SiteConfig = false -> r = ERR_PTR (- ENOMEM) ∧ kconfigs s' = kconfigs s) ∧
  (alloc_ok w SiteConfig = true ->
   ∃ c', kconfigs s' = <[fresh (dom (kconfigs s)) := c']> (kconfigs s) ∧
         ∀ c, r = PTR (Some c) -> c' = c).
Proof.
  unfold of_get_mv_vbus_config, devm_kzalloc_config, config_write. unfold_m.
  destruct (alloc_ok w SiteConfig); simpl.
  2:{ intros [= <- <-]. repeat split; done. }
  destruct (np_init_data np) as [i|]; simpl.
  2:{ intros [= <- <-]. repeat split; try done. intros _. simpl.
      rewrite insert_insert_eq. eexists. split; [done|]. done. }
  destruct (_ =? _); simpl.
  2:{ intros [= <- <-]. repeat split; try done. intros _. simpl.
      rewrite insert_insert_eq. eexists. split; [done|]. done. }
  destruct (_ || _); simpl; intros [= <- <-]; (repeat split; try done); intros _; simpl;
    rewrite insert_insert_eq; eexists; (split; [done|]); [done|].
  by intros c [= <-].
Qed.

Lemma extraction_only_allocates_its_block_witness :
  ∃ r s', of_get_mv_vbus_config world_ok deferred_node kstate_empty = Some (r, s') ∧
          same_but_configs kstate_empty s'.
Proof.
  eexists _, _. split; [vm_compute; reflexivity|].
  exact (proj1 (extraction_only_allocates_its_block world_ok deferred_node kstate_empty _ _
                  ltac:(vm_compute; reflexivity))).
Defined.

(** X7.  After a successful probe of a device with a node, the
    framework holds the node's constraints with apply_uV cleared and
    the name, min_uV, max_uV and boot_on as the node gives them. *)
Theorem device_tree_constraints_reach_the_framework w pdev np s s1 :
  of_node pdev = Some np ->
  mv_vbus_reg_probe w pdev s = Some (0, s1) ->
  ∃ rdev rd i i',
    pdev_rdev pdev s1 = Some rdev ∧ kregs s1 !! rdev = Some rd ∧
    np_init_data np = Some i ∧ rdev_constraints rd = Some i' ∧
    apply_uV (constraints i') = false ∧
    constraints_name (constraints i') = constraints_name (constraints i) ∧
    min_uV (constraints i') = min_uV (constraints i) ∧
    max_uV (constraints i') = max_uV (constraints i) ∧
    boot_on (constraints i') = boot_on (constraints i).
Proof.
  intros Hnode Hp.
  destruct (probe_success_config _ _ _ _ Hp) as (c & s0 & Hc).
  destruct (device_tree_config _ _ _ _ _ _ Hnode Hc)
    as (_ & i & Hi & _ & _ & _ & _ & _ & _ & _ & _ & _ & _ & Hinit).
  destruct (probe_success_live w _ _ _ _ _ Hc Hp) as (_ & _ & Hlive).
  destruct (live_core _ _ _ _ Hlive) as [Hrdev _].
  destruct Hlive as (_ & _ & _ & _ & Hr & _).
  eexists _, _, i, _. split; [exact Hrdev|].
  split; [rewrite Hr; apply lookup_insert_eq|].
  split; [done|]. split; [simpl; exact Hinit|]. done.
Qed.

Lemma device_tree_constraints_reach_the_framework_witness :
  mv_vbus_reg_probe world_ok vbus_pdev kstate_empty = Some (0, vbus_live) ∧
  ∃ rd i', kregs vbus_live !! 0%nat = Some rd ∧ rdev_constraints rd = Some i' ∧
           apply_uV (constraints i') = false ∧
           apply_uV (constraints (vbus_init_data 5000000 5000000)) = true.
Proof.
  assert (Hp : mv_vbus_reg_probe world_ok vbus_pdev kstate_empty = Some (0, vbus_live))
    by (vm_compute; reflexivity).
  split; [exact Hp|].
  destruct (device_tree_constraints_reach_the_framework world_ok vbus_pdev vbus_node
              kstate_empty vbus_live eq_refl Hp)
    as (rdev & rd & i & i' & Hrdev & Hrd & _ & Hi' & Happly & _).
  assert (rdev = 0%nat) as -> by (vm_compute in Hrdev; congruence).
  exists rd, i'. repeat split; assumption || reflexivity.
Defined.

(** X8.  After a successful probe of a device with a node, the instance
    has the node's min_uV as voltage, the node's pin, the inversion
    flag set exactly when "enable-active-high" is absent, no input
    supply, and the decoded "startup-delay-us" (0 when absent) as
    enable time; the pin is high exactly when boot_on and
    "enable-active-high" agree. *)
Theorem device_tree_instance w pdev np s s1 :
  of_node pdev = Some np ->
  mv_vbus_reg_probe w pdev s = Some (0, s1) ->
  ∃ rdev d i,
    pdev_rdev pdev s1 = Some rdev ∧ core_of s1 rdev = Some d ∧
    np_init_data np = Some i ∧
    d_microvolts d = min_uV (constraints i) ∧
    d_gpio d = np_gpio np ∧
    ena_gpio_invert d = negb (np_enable_active_high np) ∧
    desc_supply_name (desc d) = None ∧
    desc_enable_time (desc d) = match np_startup_delay_us np with
                                | Some delay => be32_to_cpu delay
                                | None => 0
                                end ∧
    gpio_level s1 !! np_gpio np
    = Some (Bool.eqb (boot_on (constraints i)) (np_enable_active_high np)).
Proof.
  intros Hnode Hp.
  destruct (probe_success_config _ _ _ _ Hp) as (c & s0 & Hc).
  destruct (device_tree_config _ _ _ _ _ _ Hnode Hc)
    as (_ & i & Hi & _ & _ & _ & Hname & Hsup & Hmv & Hgpio & Hhigh & Hboot & Hdelay & _).
  destruct (probe_success_live w _ _ _ _ _ Hc Hp) as (_ & _ & Hlive).
  destruct (live_core _ _ _ _ Hlive) as [Hrdev Hcore].
  destruct Hlive as (_ & _ & _ & Hl & _).
  eexists _, _, i. split; [exact Hrdev|]. split; [exact Hcore|]. split; [done|].
  simpl. unfold supply_ptr. rewrite Hsup, Hmv, Hgpio, Hhigh, Hdelay.
  repeat split; try done.
  rewrite Hl, <- Hgpio, lookup_insert_eq. unfold initial_level. by rewrite Hboot, Hhigh.
Qed.

Lemma device_tree_instance_witness :
  mv_vbus_reg_probe world_ok timed_pdev kstate_empty = Some (0, timed_live) ∧
  ∃ d, core_of timed_live 0%nat = Some d ∧
       desc_enable_time (desc d) = 256 ∧ ena_gpio_invert d = true ∧
       gpio_level timed_live !! 7 = Some true.
Proof.
  assert (Hp : mv_vbus_reg_probe world_ok timed_pdev kstate_empty = Some (0, timed_live))
    by (vm_compute; reflexivity).
  split; [exact Hp|].
  destruct (device_tree_instance world_ok timed_pdev timed_node kstate_empty timed_live
              eq_refl Hp)
    as (rdev & d & i & Hrdev & Hcore & Hi & _ & _ & Hinv & _ & Htime & Hl).
  assert (rdev = 0%nat) as -> by (vm_compute in Hrdev; congruence).
  change (np_init_data timed_node) with (Some (vbus_init_data 5000000 5000000)) in Hi.
  injection Hi as <-.
  exists d. split; [exact Hcore|]. split; [exact Htime|]. split; [exact Hinv | exact Hl].
Defined.

(** ** Probe and remove *)

(** X9.  Probe of a device with neither a node nor platform data
    returns -ENOMEM before allocating anything: the state is
    unchanged. *)
Theorem probe_without_configuration w pdev s :
  of_node pdev = None ->
  platform_data pdev = None ->
  mv_vbus_reg_probe w pdev s = Some (- ENOMEM, s).
Proof.
  intros Hnode Hdata.
  unfold mv_vbus_reg_probe, mv_vbus_reg_probe_config. unfold_m. by rewrite Hnode, Hdata.
Qed.

Lemma probe_without_configuration_witness :
  mv_vbus_reg_probe world_ok bare_pdev board_live = Some (- ENOMEM, board_live).
Proof.
  exact (probe_without_configuration world_ok bare_pdev board_live eq_refl eq_refl).
Defined.


(** X11.  Probe returns 0 exactly when it finds a configuration, all its
    allocations succeed with a supply name present, the pin is valid,
    free and granted by the chip, and the framework accepts the
    registration. *)
Theorem probe_succeeds_exactly_when w pdev s :
  (∃ s1, mv_vbus_reg_probe w pdev s = Some (0, s1)) ↔
  (∃ c s0, mv_vbus_reg_probe_config w pdev s = Some (PTR (Some c), s0) ∧
           pin_request w c s 0 ∧ regulator_register_status w = None).
Proof.
  split.
  - intros (s1 & Hp).
    destruct (probe_success_config _ _ _ _ Hp) as (c & s0 & Hc).
    destruct (probe_success_live w _ _ _ _ _ Hc Hp) as (Hpin & Hreg & _). eauto 10.
  - intros (c & s0 & Hc & Hpin & Hreg).
    destruct (probe_run w _ _ _ _ Hc) as (r & s' & Hrun & Hpath).
    destruct Hpath; try path_absurd. eauto.
Qed.

Lemma probe_succeeds_exactly_when_witness :
  ∃ s1, mv_vbus_reg_probe world_ok board_pdev kstate_empty = Some (0, s1).
Proof.
  apply (proj2 (probe_succeeds_exactly_when world_ok board_pdev kstate_empty)).
  exists board_config, kstate_empty. split; [reflexivity|].
  split; [vm_compute; repeat split; eauto | reflexivity].
Defined.

(** X12.  Whatever probe returns, the strings that were live before are
    still live, every pin that was owned keeps its owner and its level,
    every registered instance is still registered with the same driver
    data, and the driver-data slots of other devices are unchanged. *)
Theorem probe_leaves_the_rest_alone w pdev s r s' :
  mv_vbus_reg_probe w pdev s = Some (r, s') ->
  (∀ a str, kstrings s !! a = Some str -> kstrings s' !! a = Some str) ∧
  (∀ pin o, gpio_owner s !! pin = Some o ->
            gpio_owner s' !! pin = Some o ∧ gpio_level s' !! pin = gpio_level s !! pin) ∧
  (∀ rdev d, core_of s rdev = Some d -> core_of s' rdev = Some d) ∧
  (∀ id, id ≠ pdev_id pdev -> pdev_drvdata s' !! id = pdev_drvdata s !! id).
Proof.
  intros Hp.
  assert (Hsame : same_but_configs s s' ->
    (∀ a str, kstrings s !! a = Some str -> kstrings s' !! a = Some str) ∧
    (∀ pin o, gpio_owner s !! pin = Some o ->
              gpio_owner s' !! pin = Some o ∧ gpio_level s' !! pin = gpio_level s !! pin) ∧
    (∀ rdev d, core_of s rdev = Some d -> core_of s' rdev = Some d) ∧
    (∀ id, id ≠ pdev_id pdev -> pdev_drvdata s' !! id = pdev_drvdata s !! id)).
  { intros (Hk & Hd & Ho & Hl & Hr & Hs & _).
    rewrite Hk, Ho, Hl, Hs. repeat split; try done.
    intros rdev d. unfold core_of. by rewrite Hr, Hd. }
  destruct (probe_config_frame w pdev s) as ([[c|]|e] & s0 & Hc & Hframe).
  2:{ unfold mv_vbus_reg_probe in Hp. unfold_m. rewrite Hc in Hp.
      injection Hp as _ <-. by apply Hsame. }
  2:{ rewrite (probe_stops _ _ _ _ _ Hc) in Hp. injection Hp as _ <-. by apply Hsame. }
  destruct (probe_run w _ _ _ _ Hc) as (r' & s'' & Hrun & Hpath).
  rewrite Hp in Hrun. injection Hrun as <- <-.
  destruct Hpath as [s' ? Hs | s' ? ? [d0 Hd] Hk Ho Hl Hr Hs _
                    | s' ? ? ? ? ? [d0 Hd] Hk Ho Hl Hr Hs _
                    | s' ? ? [d0 Hd] Hk Ho Hl Hr Hs _
                    | ret s' ? ? [d0 Hd] Hk Ho Hl Hr Hs _
                    | e s' ? Hfree ? [d0 Hd] Hk Ho Hl Hr Hs _
                    | s' ? Hfree ? (Hd & Hk & Ho & Hl & Hr & Hs & _)];
    [by apply Hsame | ..].
  all: rewrite ?Hk, ?Ho, ?Hl, ?Hs.
  all: split;
    [intros a str Ha;
     first [ exact Ha | by apply strings_supply_only_keeps | by apply strings_after_supply_keeps ]|].
  all: split;
    [intros pin o Hpin;
     first [ done
           | assert (gpio c ≠ pin) by (intros <-; congruence);
             by rewrite !lookup_insert_ne by done ]|].
  all: split;
    [intros rdev d; apply core_of_kept;
     [ intros r0 rd Hr0; rewrite Hr; first [ exact Hr0 | by apply lookup_insert_fresh ]
     | intros p x Hx; rewrite Hd; by apply lookup_insert_fresh ]|].
  all: intros id Hid; first [ done | by rewrite lookup_insert_ne ].
Qed.

Lemma probe_leaves_the_rest_alone_witness :
  ∃ r s', mv_vbus_reg_probe world_ok vbus_pdev board_live = Some (r, s') ∧
          r = - EBUSY ∧
          kstrings s' !! 1%nat = Some "vin"%string ∧
          gpio_owner s' !! 42 = Some (Some 0%nat) ∧
          ∃ d, core_of s' 0%nat = Some d ∧ d_microvolts d = 5000000.
Proof.
  eexists _, _. split; [vm_compute; reflexivity|]. split; [reflexivity|].
  destruct (probe_leaves_the_rest_alone world_ok vbus_pdev board_live _ _
              ltac:(vm_compute; reflexivity))
    as (Hk & Ho & Hcore & _).
  split; [apply Hk; vm_compute; reflexivity|].
  split; [apply (Ho 42 (Some 0%nat)); vm_compute; reflexivity|].
  eexists. split; [apply Hcore; vm_compute; reflexivity | reflexivity].
Defined.

(** X13.  After a successful probe the device's driver-data slot and the
    registered regulator's reg_data hold the same block, whose dev
    field is that regulator; the framework got the configuration's
    init data as they were. *)
Theorem probed_instance_is_shared w pdev s s1 :
  mv_vbus_reg_probe w pdev s = Some (0, s1) ->
  ∃ c s0 p d rdev rd,
    mv_vbus_reg_probe_config w pdev s = Some (PTR (Some c), s0) ∧
    pdev_drvdata s1 !! pdev_id pdev = Some p ∧ kdata s1 !! p = Some d ∧
    dev d = PTR (Some rdev) ∧
    kregs s1 !! rdev = Some rd ∧ reg_data rd = Some p ∧
    rdev_constraints rd = init_data c.
Proof.
  intros Hp.
  destruct (probe_success_config _ _ _ _ Hp) as (c & s0 & Hc).
  destruct (probe_success_live w _ _ _ _ _ Hc Hp) as (_ & _ & Hlive).
  destruct Hlive as (Hd & _ & _ & _ & Hr & Hs & _).
  eexists c, s0, _, _, _, _. split; [done|].
  rewrite Hs, Hd, Hr, !lookup_insert_eq. repeat split; done.
Qed.

Lemma probed_instance_is_shared_witness :
  mv_vbus_reg_probe world_ok board_pdev kstate_empty = Some (0, board_live) ∧
  ∃ p rdev rd, pdev_drvdata board_live !! 1%nat = Some p ∧
               kregs board_live !! rdev = Some rd ∧ reg_data rd = Some p.
Proof.
  assert (Hp : mv_vbus_reg_probe world_ok board_pdev kstate_empty = Some (0, board_live))
    by (vm_compute; reflexivity).
  split; [exact Hp|].
  destruct (probed_instance_is_shared world_ok board_pdev kstate_empty board_live Hp)
    as (c & s0 & p & d & rdev & rd & _ & Hs & _ & _ & Hr & Hdata & _).
  exists p, rdev, rd. split; [exact Hs|]. split; [exact Hr | exact Hdata].
Defined.

(** X14.  After probe and remove of a device, a new probe of it with the
    same configuration that reaches the pin request fails with the pin
    busy, -EBUSY, and registers nothing: remove left the pin owned. *)
Theorem probe_after_remove_finds_the_pin_busy w w' pdev s c s0 s1 s2 s3 :
  mv_vbus_reg_probe_config w pdev s = Some (PTR (Some c), s0) ->
  mv_vbus_reg_probe w pdev s = Some (0, s1) ->
  mv_vbus_reg_remove pdev s1 = Some (0, s2) ->
  mv_vbus_reg_probe_config w' pdev s2 = Some (PTR (Some c), s3) ->
  allocs_ok w' c ->
  gpio_is_valid w' (gpio c) = true ->
  ∃ s4, mv_vbus_reg_probe w' pdev s2 = Some (- EBUSY, s4) ∧
        kregs s4 = kregs s2.
Proof.
  intros Hc Hp Hrm Hc' Hallocs Hvalid.
  destruct (probe_success_live w _ _ _ _ _ Hc Hp) as (Hpin & _ & Hlive).
  assert (Hn : is_Some (supply_name c)) by (unfold pin_request, allocs_ok in Hpin; tauto).
  destruct (remove_live _ _ _ _ Hn Hlive) as (s2' & Hrun & _ & _ & _ & Ho & _).
  rewrite Hrm in Hrun. injection Hrun as <-.
  assert (Hown : is_Some (gpio_owner s2 !! gpio c)).
  { rewrite Ho. destruct Hlive as (_ & _ & -> & _). rewrite lookup_insert_eq. eauto. }
  assert (Hbusy : pin_request w' c s2 (- EBUSY)).
  { unfold pin_request. destruct Hown as [o ->]. done. }
  destruct (probe_run w' _ _ _ _ Hc') as (r & s4 & Hrun & Hpath).
  destruct Hpath;
    try match goal with
        | H : pin_request _ _ _ ?x |- _ =>
          pose proof (pin_request_fun _ _ _ _ _ H Hbusy) as E; try discriminate E
        end;
    try path_absurd.
  subst. eauto.
Qed.

Lemma probe_after_remove_finds_the_pin_busy_witness :
  mv_vbus_reg_probe world_ok board_pdev kstate_empty = Some (0, board_live) ∧
  mv_vbus_reg_remove board_pdev board_live = Some (0, board_removed) ∧
  ∃ s4, mv_vbus_reg_probe world_ok board_pdev board_removed = Some (- EBUSY, s4).
Proof.
  assert (Hp : mv_vbus_reg_probe world_ok board_pdev kstate_empty = Some (0, board_live))
    by (vm_compute; reflexivity).
  assert (Hr : mv_vbus_reg_remove board_pdev board_live = Some (0, board_removed))
    by (vm_compute; reflexivity).
  split; [exact Hp|]. split; [exact Hr|].
  destruct (probe_after_remove_finds_the_pin_busy world_ok world_ok board_pdev kstate_empty
              board_config kstate_empty board_live board_removed board_removed
              eq_refl Hp Hr eq_refl
              ltac:(vm_compute; repeat split; eauto) eq_refl)
    as (s4 & Hrun & _).
  exists s4. exact Hrun.
Defined.

(** X15.  The level probe leaves on the pin is the level enable drives
    when the configuration says enabled at boot, and the level disable
    drives when it does not: that request right after probe changes no
    pin level. *)
Theorem probe_leaves_the_rail_in_its_boot_state w pdev s c s0 s1 :
  mv_vbus_reg_probe_config w pdev s = Some (PTR (Some c), s0) ->
  mv_vbus_reg_probe w pdev s = Some (0, s1) ->
  ∃ rdev s2,
    pdev_rdev pdev s1 = Some rdev ∧
    (if enabled_at_boot c then enable vbus_ops rdev else disable vbus_ops rdev) s1
    = Some (0, s2) ∧
    gpio_level s2 = gpio_level s1.
Proof.
  intros Hc Hp.
  destruct (probe_success_live w _ _ _ _ _ Hc Hp) as (_ & _ & Hlive).
  destruct (live_core _ _ _ _ Hlive) as [Hrdev Hcore].
  destruct Hlive as (_ & _ & _ & Hl & _).
  eexists _, _. split; [exact Hrdev|].
  split; [apply (request_core _ _ _ _ Hcore)|].
  simpl. rewrite Hl, insert_insert_eq. f_equal.
  unfold initial_level. by destruct (enabled_at_boot c), (enable_high c).
Qed.

Lemma probe_leaves_the_rail_in_its_boot_state_witness :
  mv_vbus_reg_probe world_ok board_pdev kstate_empty = Some (0, board_live) ∧
  ∃ s2, disable vbus_ops 0%nat board_live = Some (0, s2) ∧
        gpio_level s2 = gpio_level board_live.
Proof.
  assert (Hp : mv_vbus_reg_probe world_ok board_pdev kstate_empty = Some (0, board_live))
    by (vm_compute; reflexivity).
  split; [exact Hp|].
  destruct (probe_leaves_the_rail_in_its_boot_state world_ok board_pdev kstate_empty
              board_config kstate_empty board_live eq_refl Hp)
    as (rdev & s2 & Hrdev & Hrun & Hl).
  assert (rdev = 0%nat) as -> by (vm_compute in Hrdev; congruence).
  exists s2. split; [exact Hrun | exact Hl].
Defined.

(** X16.  After a successful probe and any sequence of enable and
    disable requests, remove returns 0, unregisters and then frees the
    two strings, and the live strings and the registry are those from
    before probe; the pin ownership is what probe left. *)
Theorem remove_after_requests w pdev s c s0 s1 reqs :
  mv_vbus_reg_probe_config w pdev s = Some (PTR (Some c), s0) ->
  mv_vbus_reg_probe w pdev s = Some (0, s1) ->
  ∃ rdev d s2 s3,
    pdev_rdev pdev s1 = Some rdev ∧ core_of s1 rdev = Some d ∧
    mv_vbus_requests rdev reqs s1 = Some (0, s2) ∧
    mv_vbus_reg_remove pdev s2 = Some (0, s3) ∧
    ktrace s3 = ktrace s1 ++ request_events d reqs ++
                [EvUnregister rdev; EvKfree (desc_supply_name (desc d));
                 EvKfree (desc_name (desc d))] ∧
    kstrings s3 = kstrings s ∧ kregs s3 = kregs s ∧
    gpio_owner s3 = gpio_owner s1.
Proof.
  intros Hc Hp.
  destruct (probe_success_live w _ _ _ _ _ Hc Hp) as (Hpin & _ & Hlive).
  assert (Hn : is_Some (supply_name c)) by (unfold pin_request, allocs_ok in Hpin; tauto).
  destruct (live_core _ _ _ _ Hlive) as [Hrdev Hcore].
  destruct (requests_run _ _ reqs _ Hcore)
    as (s2 & Hrun & Ht & Hk & Hd & Hr & Hs & Ho & _).
  destruct Hlive as (Hd1 & Hk1 & _ & _ & Hr1 & Hs1 & _).
  rewrite Hd1 in Hd. rewrite Hk1 in Hk. rewrite Hr1 in Hr. rewrite Hs1 in Hs.
  destruct (remove_registered pdev c s s2 Hn Hd Hk Hr Hs)
    as (s3 & Hrm & Ht3 & Hr3 & Hk3 & Ho3 & _).
  eexists _, _, s2, s3. split; [exact Hrdev|]. split; [exact Hcore|].
  split; [exact Hrun|]. split; [exact Hrm|].
  rewrite Ht3, Ht, <- app_assoc. simpl. repeat split; try done. congruence.
Qed.

Lemma remove_after_requests_witness :
  mv_vbus_reg_probe world_ok board_pdev kstate_empty = Some (0, board_live) ∧
  ∃ s2 s3, mv_vbus_requests 0%nat [true; false] board_live = Some (0, s2) ∧
           mv_vbus_reg_remove board_pdev s2 = Some (0, s3) ∧
           kstrings s3 = ∅ ∧ kregs s3 = ∅.
Proof.
  assert (Hp : mv_vbus_reg_probe world_ok board_pdev kstate_empty = Some (0, board_live))
    by (vm_compute; reflexivity).
  split; [exact Hp|].
  destruct (remove_after_requests world_ok board_pdev kstate_empty board_config
              kstate_empty board_live [true; false] eq_refl Hp)
    as (rdev & d & s2 & s3 & Hrdev & _ & Hrun & Hrm & _ & Hk & Hr & _).
  assert (rdev = 0%nat) as -> by (vm_compute in Hrdev; congruence).
  exists s2, s3. split; [exact Hrun|]. split; [exact Hrm|]. split; [exact Hk | exact Hr].
Defined.
